(** * Orbis: the moderation predicates and the reply policy of [bot.py]

    A shallow embedding of [contains_too_much_caps], [contains_emojis] and
    [OrbisClient.on_message], followed by the properties the specification
    states about them. *)

From Stdlib Require Import String Ascii ZArith List Permutation Bool Lia.
From Stdlib Require Import PrimFloat Uint63 SpecFloat FloatOps FloatAxioms.
Import ListNotations.
Local Open Scope Z_scope.

(** ** Python values *)

(** A Python [str] is a sequence of Unicode code points. *)
Definition codepoint : Type := Z.
Definition str : Type := list codepoint.

Definition ord (a : ascii) : codepoint := Z.of_N (N_of_ascii a).

(** An ASCII literal as a Python [str]. *)
Definition py (s : string) : str := map ord (list_ascii_of_string s).

Inductive exn : Type :=
| ZeroDivisionError.

(** The outcome of evaluating a Python expression: a value or a raised
    exception. *)
Inductive result (A : Type) : Type :=
| Ok (a : A)
| Raise (e : exn).

Arguments Ok {A} a.
Arguments Raise {A} e.

Definition result_bind {A B : Type} (r : result A) (k : A -> result B) : result B :=
  match r with
  | Ok a => k a
  | Raise e => Raise e
  end.

(** Membership of a code point in a union of inclusive ranges [lo-hi]. *)
Definition in_ranges (rs : list (codepoint * codepoint)) (c : codepoint) : bool :=
  existsb (fun r => (fst r <=? c) && (c <=? snd r)) rs.

(** The builtin [sum] over a list of integers. *)
Definition sum (xs : list Z) : Z := fold_left Z.add xs 0.

(** [float(n)] for a count [n] of characters: exact below [2^53], which
    bounds the length of any [str] that fits in memory. *)
Definition float_of_int (n : Z) : float := PrimFloat.of_uint63 (Uint63.of_Z n).

(** [a / b] on integers: true division, a binary64 quotient, raising on a
    zero divisor. *)
Definition truediv (a b : Z) : result float :=
  if b =? 0 then Raise ZeroDivisionError
  else Ok (PrimFloat.div (float_of_int a) (float_of_int b)).

(** [x > y] on floats. *)
Definition float_gt (x y : float) : bool := PrimFloat.ltb y x.

(** The two [str] methods the bot calls on single characters.  They belong to
    the Python runtime, so the bot is stated over any pair of classifiers;
    [cpython] below is the one of CPython 3.11. *)
Class StrMethods : Type := {
  isupper : codepoint -> bool;
  isalpha : codepoint -> bool
}.

Module unicodedata.

(** Code points [c] with [chr(c).isalpha()], as inclusive ranges: the general
    categories Lu, Ll, Lt, Lm and Lo of the Unicode 14.0 database that CPython
    3.11 ships. *)
Definition alpha_table : list (codepoint * codepoint) :=
 [(0x41, 0x5A); (0x61, 0x7A); (0xAA, 0xAA); (0xB5, 0xB5); (0xBA, 0xBA);
   (0xC0, 0xD6); (0xD8, 0xF6); (0xF8, 0x2C1); (0x2C6, 0x2D1); (0x2E0, 0x2E4);
   (0x2EC, 0x2EC); (0x2EE, 0x2EE); (0x370, 0x374); (0x376, 0x377);
   (0x37A, 0x37D); (0x37F, 0x37F); (0x386, 0x386); (0x388, 0x38A);
   (0x38C, 0x38C); (0x38E, 0x3A1); (0x3A3, 0x3F5); (0x3F7, 0x481);
   (0x48A, 0x52F); (0x531, 0x556); (0x559, 0x559); (0x560, 0x588);
   (0x5D0, 0x5EA); (0x5EF, 0x5F2); (0x620, 0x64A); (0x66E, 0x66F);
   (0x671, 0x6D3); (0x6D5, 0x6D5); (0x6E5, 0x6E6); (0x6EE, 0x6EF);
   (0x6FA, 0x6FC); (0x6FF, 0x6FF); (0x710, 0x710); (0x712, 0x72F);
   (0x74D, 0x7A5); (0x7B1, 0x7B1); (0x7CA, 0x7EA); (0x7F4, 0x7F5);
   (0x7FA, 0x7FA); (0x800, 0x815); (0x81A, 0x81A); (0x824, 0x824);
   (0x828, 0x828); (0x840, 0x858); (0x860, 0x86A); (0x870, 0x887);
   (0x889, 0x88E); (0x8A0, 0x8C9); (0x904, 0x939); (0x93D, 0x93D);
   (0x950, 0x950); (0x958, 0x961); (0x971, 0x980); (0x985, 0x98C);
   (0x98F, 0x990); (0x993, 0x9A8); (0x9AA, 0x9B0); (0x9B2, 0x9B2);
   (0x9B6, 0x9B9); (0x9BD, 0x9BD); (0x9CE, 0x9CE); (0x9DC, 0x9DD);
   (0x9DF, 0x9E1); (0x9F0, 0x9F1); (0x9FC, 0x9FC); (0xA05, 0xA0A);
   (0xA0F, 0xA10); (0xA13, 0xA28); (0xA2A, 0xA30); (0xA32, 0xA33);
   (0xA35, 0xA36); (0xA38, 0xA39); (0xA59, 0xA5C); (0xA5E, 0xA5E);
   (0xA72, 0xA74); (0xA85, 0xA8D); (0xA8F, 0xA91); (0xA93, 0xAA8);
   (0xAAA, 0xAB0); (0xAB2, 0xAB3); (0xAB5, 0xAB9); (0xABD, 0xABD);
   (0xAD0, 0xAD0); (0xAE0, 0xAE1); (0xAF9, 0xAF9); (0xB05, 0xB0C);
   (0xB0F, 0xB10); (0xB13, 0xB28); (0xB2A, 0xB30); (0xB32, 0xB33);
   (0xB35, 0xB39); (0xB3D, 0xB3D); (0xB5C, 0xB5D); (0xB5F, 0xB61);
   (0xB71, 0xB71); (0xB83, 0xB83); (0xB85, 0xB8A); (0xB8E, 0xB90);
   (0xB92, 0xB95); (0xB99, 0xB9A); (0xB9C, 0xB9C); (0xB9E, 0xB9F);
   (0xBA3, 0xBA4); (0xBA8, 0xBAA); (0xBAE, 0xBB9); (0xBD0, 0xBD0);
   (0xC05, 0xC0C); (0xC0E, 0xC10); (0xC12, 0xC28); (0xC2A, 0xC39);
   (0xC3D, 0xC3D); (0xC58, 0xC5A); (0xC5D, 0xC5D); (0xC60, 0xC61);
   (0xC80, 0xC80); (0xC85, 0xC8C); (0xC8E, 0xC90); (0xC92, 0xCA8);
   (0xCAA, 0xCB3); (0xCB5, 0xCB9); (0xCBD, 0xCBD); (0xCDD, 0xCDE);
   (0xCE0, 0xCE1); (0xCF1, 0xCF2); (0xD04, 0xD0C); (0xD0E, 0xD10);
   (0xD12, 0xD3A); (0xD3D, 0xD3D); (0xD4E, 0xD4E); (0xD54, 0xD56);
   (0xD5F, 0xD61); (0xD7A, 0xD7F); (0xD85, 0xD96); (0xD9A, 0xDB1);
   (0xDB3, 0xDBB); (0xDBD, 0xDBD); (0xDC0, 0xDC6); (0xE01, 0xE30);
   (0xE32, 0xE33); (0xE40, 0xE46); (0xE81, 0xE82); (0xE84, 0xE84);
   (0xE86, 0xE8A); (0xE8C, 0xEA3); (0xEA5, 0xEA5); (0xEA7, 0xEB0);
   (0xEB2, 0xEB3); (0xEBD, 0xEBD); (0xEC0, 0xEC4); (0xEC6, 0xEC6);
   (0xEDC, 0xEDF); (0xF00, 0xF00); (0xF40, 0xF47); (0xF49, 0xF6C);
   (0xF88, 0xF8C); (0x1000, 0x102A); (0x103F, 0x103F); (0x1050, 0x1055);
   (0x105A, 0x105D); (0x1061, 0x1061); (0x1065, 0x1066); (0x106E, 0x1070);
   (0x1075, 0x1081); (0x108E, 0x108E); (0x10A0, 0x10C5); (0x10C7, 0x10C7);
   (0x10CD, 0x10CD); (0x10D0, 0x10FA); (0x10FC, 0x1248); (0x124A, 0x124D);
   (0x1250, 0x1256); (0x1258, 0x1258); (0x125A, 0x125D); (0x1260, 0x1288);
   (0x128A, 0x128D); (0x1290, 0x12B0); (0x12B2, 0x12B5); (0x12B8, 0x12BE);
   (0x12C0, 0x12C0); (0x12C2, 0x12C5); (0x12C8, 0x12D6); (0x12D8, 0x1310);
   (0x1312, 0x1315); (0x1318, 0x135A); (0x1380, 0x138F); (0x13A0, 0x13F5);
   (0x13F8, 0x13FD); (0x1401, 0x166C); (0x166F, 0x167F); (0x1681, 0x169A);
   (0x16A0, 0x16EA); (0x16F1, 0x16F8); (0x1700, 0x1711); (0x171F, 0x1731);
   (0x1740, 0x1751); (0x1760, 0x176C); (0x176E, 0x1770); (0x1780, 0x17B3);
   (0x17D7, 0x17D7); (0x17DC, 0x17DC); (0x1820, 0x1878); (0x1880, 0x1884);
   (0x1887, 0x18A8); (0x18AA, 0x18AA); (0x18B0, 0x18F5); (0x1900, 0x191E);
   (0x1950, 0x196D); (0x1970, 0x1974); (0x1980, 0x19AB); (0x19B0, 0x19C9);
   (0x1A00, 0x1A16); (0x1A20, 0x1A54); (0x1AA7, 0x1AA7); (0x1B05, 0x1B33);
   (0x1B45, 0x1B4C); (0x1B83, 0x1BA0); (0x1BAE, 0x1BAF); (0x1BBA, 0x1BE5);
   (0x1C00, 0x1C23); (0x1C4D, 0x1C4F); (0x1C5A, 0x1C7D); (0x1C80, 0x1C88);
   (0x1C90, 0x1CBA); (0x1CBD, 0x1CBF); (0x1CE9, 0x1CEC); (0x1CEE, 0x1CF3);
   (0x1CF5, 0x1CF6); (0x1CFA, 0x1CFA); (0x1D00, 0x1DBF); (0x1E00, 0x1F15);
   (0x1F18, 0x1F1D); (0x1F20, 0x1F45); (0x1F48, 0x1F4D); (0x1F50, 0x1F57);
   (0x1F59, 0x1F59); (0x1F5B, 0x1F5B); (0x1F5D, 0x1F5D); (0x1F5F, 0x1F7D);
   (0x1F80, 0x1FB4); (0x1FB6, 0x1FBC); (0x1FBE, 0x1FBE); (0x1FC2, 0x1FC4);
   (0x1FC6, 0x1FCC); (0x1FD0, 0x1FD3); (0x1FD6, 0x1FDB); (0x1FE0, 0x1FEC);
   (0x1FF2, 0x1FF4); (0x1FF6, 0x1FFC); (0x2071, 0x2071); (0x207F, 0x207F);
   (0x2090, 0x209C); (0x2102, 0x2102); (0x2107, 0x2107); (0x210A, 0x2113);
   (0x2115, 0x2115); (0x2119, 0x211D); (0x2124, 0x2124); (0x2126, 0x2126);
   (0x2128, 0x2128); (0x212A, 0x212D); (0x212F, 0x2139); (0x213C, 0x213F);
   (0x2145, 0x2149); (0x214E, 0x214E); (0x2183, 0x2184); (0x2C00, 0x2CE4);
   (0x2CEB, 0x2CEE); (0x2CF2, 0x2CF3); (0x2D00, 0x2D25); (0x2D27, 0x2D27);
   (0x2D2D, 0x2D2D); (0x2D30, 0x2D67); (0x2D6F, 0x2D6F); (0x2D80, 0x2D96);
   (0x2DA0, 0x2DA6); (0x2DA8, 0x2DAE); (0x2DB0, 0x2DB6); (0x2DB8, 0x2DBE);
   (0x2DC0, 0x2DC6); (0x2DC8, 0x2DCE); (0x2DD0, 0x2DD6); (0x2DD8, 0x2DDE);
   (0x2E2F, 0x2E2F); (0x3005, 0x3006); (0x3031, 0x3035); (0x303B, 0x303C);
   (0x3041, 0x3096); (0x309D, 0x309F); (0x30A1, 0x30FA); (0x30FC, 0x30FF);
   (0x3105, 0x312F); (0x3131, 0x318E); (0x31A0, 0x31BF); (0x31F0, 0x31FF);
   (0x3400, 0x4DBF); (0x4E00, 0xA48C); (0xA4D0, 0xA4FD); (0xA500, 0xA60C);
   (0xA610, 0xA61F); (0xA62A, 0xA62B); (0xA640, 0xA66E); (0xA67F, 0xA69D);
   (0xA6A0, 0xA6E5); (0xA717, 0xA71F); (0xA722, 0xA788); (0xA78B, 0xA7CA);
   (0xA7D0, 0xA7D1); (0xA7D3, 0xA7D3); (0xA7D5, 0xA7D9); (0xA7F2, 0xA801);
   (0xA803, 0xA805); (0xA807, 0xA80A); (0xA80C, 0xA822); (0xA840, 0xA873);
   (0xA882, 0xA8B3); (0xA8F2, 0xA8F7); (0xA8FB, 0xA8FB); (0xA8FD, 0xA8FE);
   (0xA90A, 0xA925); (0xA930, 0xA946); (0xA960, 0xA97C); (0xA984, 0xA9B2);
   (0xA9CF, 0xA9CF); (0xA9E0, 0xA9E4); (0xA9E6, 0xA9EF); (0xA9FA, 0xA9FE);
   (0xAA00, 0xAA28); (0xAA40, 0xAA42); (0xAA44, 0xAA4B); (0xAA60, 0xAA76);
   (0xAA7A, 0xAA7A); (0xAA7E, 0xAAAF); (0xAAB1, 0xAAB1); (0xAAB5, 0xAAB6);
   (0xAAB9, 0xAABD); (0xAAC0, 0xAAC0); (0xAAC2, 0xAAC2); (0xAADB, 0xAADD);
   (0xAAE0, 0xAAEA); (0xAAF2, 0xAAF4); (0xAB01, 0xAB06); (0xAB09, 0xAB0E);
   (0xAB11, 0xAB16); (0xAB20, 0xAB26); (0xAB28, 0xAB2E); (0xAB30, 0xAB5A);
   (0xAB5C, 0xAB69); (0xAB70, 0xABE2); (0xAC00, 0xD7A3); (0xD7B0, 0xD7C6);
   (0xD7CB, 0xD7FB); (0xF900, 0xFA6D); (0xFA70, 0xFAD9); (0xFB00, 0xFB06);
   (0xFB13, 0xFB17); (0xFB1D, 0xFB1D); (0xFB1F, 0xFB28); (0xFB2A, 0xFB36);
   (0xFB38, 0xFB3C); (0xFB3E, 0xFB3E); (0xFB40, 0xFB41); (0xFB43, 0xFB44);
   (0xFB46, 0xFBB1); (0xFBD3, 0xFD3D); (0xFD50, 0xFD8F); (0xFD92, 0xFDC7);
   (0xFDF0, 0xFDFB); (0xFE70, 0xFE74); (0xFE76, 0xFEFC); (0xFF21, 0xFF3A);
   (0xFF41, 0xFF5A); (0xFF66, 0xFFBE); (0xFFC2, 0xFFC7); (0xFFCA, 0xFFCF);
   (0xFFD2, 0xFFD7); (0xFFDA, 0xFFDC); (0x10000, 0x1000B);
   (0x1000D, 0x10026); (0x10028, 0x1003A); (0x1003C, 0x1003D);
   (0x1003F, 0x1004D); (0x10050, 0x1005D); (0x10080, 0x100FA);
   (0x10280, 0x1029C); (0x102A0, 0x102D0); (0x10300, 0x1031F);
   (0x1032D, 0x10340); (0x10342, 0x10349); (0x10350, 0x10375);
   (0x10380, 0x1039D); (0x103A0, 0x103C3); (0x103C8, 0x103CF);
   (0x10400, 0x1049D); (0x104B0, 0x104D3); (0x104D8, 0x104FB);
   (0x10500, 0x10527); (0x10530, 0x10563); (0x10570, 0x1057A);
   (0x1057C, 0x1058A); (0x1058C, 0x10592); (0x10594, 0x10595);
   (0x10597, 0x105A1); (0x105A3, 0x105B1); (0x105B3, 0x105B9);
   (0x105BB, 0x105BC); (0x10600, 0x10736); (0x10740, 0x10755);
   (0x10760, 0x10767); (0x10780, 0x10785); (0x10787, 0x107B0);
   (0x107B2, 0x107BA); (0x10800, 0x10805); (0x10808, 0x10808);
   (0x1080A, 0x10835); (0x10837, 0x10838); (0x1083C, 0x1083C);
   (0x1083F, 0x10855); (0x10860, 0x10876); (0x10880, 0x1089E);
   (0x108E0, 0x108F2); (0x108F4, 0x108F5); (0x10900, 0x10915);
   (0x10920, 0x10939); (0x10980, 0x109B7); (0x109BE, 0x109BF);
   (0x10A00, 0x10A00); (0x10A10, 0x10A13); (0x10A15, 0x10A17);
   (0x10A19, 0x10A35); (0x10A60, 0x10A7C); (0x10A80, 0x10A9C);
   (0x10AC0, 0x10AC7); (0x10AC9, 0x10AE4); (0x10B00, 0x10B35);
   (0x10B40, 0x10B55); (0x10B60, 0x10B72); (0x10B80, 0x10B91);
   (0x10C00, 0x10C48); (0x10C80, 0x10CB2); (0x10CC0, 0x10CF2);
   (0x10D00, 0x10D23); (0x10E80, 0x10EA9); (0x10EB0, 0x10EB1);
   (0x10F00, 0x10F1C); (0x10F27, 0x10F27); (0x10F30, 0x10F45);
   (0x10F70, 0x10F81); (0x10FB0, 0x10FC4); (0x10FE0, 0x10FF6);
   (0x11003, 0x11037); (0x11071, 0x11072); (0x11075, 0x11075);
   (0x11083, 0x110AF); (0x110D0, 0x110E8); (0x11103, 0x11126);
   (0x11144, 0x11144); (0x11147, 0x11147); (0x11150, 0x11172);
   (0x11176, 0x11176); (0x11183, 0x111B2); (0x111C1, 0x111C4);
   (0x111DA, 0x111DA); (0x111DC, 0x111DC); (0x11200, 0x11211);
   (0x11213, 0x1122B); (0x11280, 0x11286); (0x11288, 0x11288);
   (0x1128A, 0x1128D); (0x1128F, 0x1129D); (0x1129F, 0x112A8);
   (0x112B0, 0x112DE); (0x11305, 0x1130C); (0x1130F, 0x11310);
   (0x11313, 0x11328); (0x1132A, 0x11330); (0x11332, 0x11333);
   (0x11335, 0x11339); (0x1133D, 0x1133D); (0x11350, 0x11350);
   (0x1135D, 0x11361); (0x11400, 0x11434); (0x11447, 0x1144A);
   (0x1145F, 0x11461); (0x11480, 0x114AF); (0x114C4, 0x114C5);
   (0x114C7, 0x114C7); (0x11580, 0x115AE); (0x115D8, 0x115DB);
   (0x11600, 0x1162F); (0x11644, 0x11644); (0x11680, 0x116AA);
   (0x116B8, 0x116B8); (0x11700, 0x1171A); (0x11740, 0x11746);
   (0x11800, 0x1182B); (0x118A0, 0x118DF); (0x118FF, 0x11906);
   (0x11909, 0x11909); (0x1190C, 0x11913); (0x11915, 0x11916);
   (0x11918, 0x1192F); (0x1193F, 0x1193F); (0x11941, 0x11941);
   (0x119A0, 0x119A7); (0x119AA, 0x119D0); (0x119E1, 0x119E1);
   (0x119E3, 0x119E3); (0x11A00, 0x11A00); (0x11A0B, 0x11A32);
   (0x11A3A, 0x11A3A); (0x11A50, 0x11A50); (0x11A5C, 0x11A89);
   (0x11A9D, 0x11A9D); (0x11AB0, 0x11AF8); (0x11C00, 0x11C08);
   (0x11C0A, 0x11C2E); (0x11C40, 0x11C40); (0x11C72, 0x11C8F);
   (0x11D00, 0x11D06); (0x11D08, 0x11D09); (0x11D0B, 0x11D30);
   (0x11D46, 0x11D46); (0x11D60, 0x11D65); (0x11D67, 0x11D68);
   (0x11D6A, 0x11D89); (0x11D98, 0x11D98); (0x11EE0, 0x11EF2);
   (0x11FB0, 0x11FB0); (0x12000, 0x12399); (0x12480, 0x12543);
   (0x12F90, 0x12FF0); (0x13000, 0x1342E); (0x14400, 0x14646);
   (0x16800, 0x16A38); (0x16A40, 0x16A5E); (0x16A70, 0x16ABE);
   (0x16AD0, 0x16AED); (0x16B00, 0x16B2F); (0x16B40, 0x16B43);
   (0x16B63, 0x16B77); (0x16B7D, 0x16B8F); (0x16E40, 0x16E7F);
   (0x16F00, 0x16F4A); (0x16F50, 0x16F50); (0x16F93, 0x16F9F);
   (0x16FE0, 0x16FE1); (0x16FE3, 0x16FE3); (0x17000, 0x187F7);
   (0x18800, 0x18CD5); (0x18D00, 0x18D08); (0x1AFF0, 0x1AFF3);
   (0x1AFF5, 0x1AFFB); (0x1AFFD, 0x1AFFE); (0x1B000, 0x1B122);
   (0x1B150, 0x1B152); (0x1B164, 0x1B167); (0x1B170, 0x1B2FB);
   (0x1BC00, 0x1BC6A); (0x1BC70, 0x1BC7C); (0x1BC80, 0x1BC88);
   (0x1BC90, 0x1BC99); (0x1D400, 0x1D454); (0x1D456, 0x1D49C);
   (0x1D49E, 0x1D49F); (0x1D4A2, 0x1D4A2); (0x1D4A5, 0x1D4A6);
   (0x1D4A9, 0x1D4AC); (0x1D4AE, 0x1D4B9); (0x1D4BB, 0x1D4BB);
   (0x1D4BD, 0x1D4C3); (0x1D4C5, 0x1D505); (0x1D507, 0x1D50A);
   (0x1D50D, 0x1D514); (0x1D516, 0x1D51C); (0x1D51E, 0x1D539);
   (0x1D53B, 0x1D53E); (0x1D540, 0x1D544); (0x1D546, 0x1D546);
   (0x1D54A, 0x1D550); (0x1D552, 0x1D6A5); (0x1D6A8, 0x1D6C0);
   (0x1D6C2, 0x1D6DA); (0x1D6DC, 0x1D6FA); (0x1D6FC, 0x1D714);
   (0x1D716, 0x1D734); (0x1D736, 0x1D74E); (0x1D750, 0x1D76E);
   (0x1D770, 0x1D788); (0x1D78A, 0x1D7A8); (0x1D7AA, 0x1D7C2);
   (0x1D7C4, 0x1D7CB); (0x1DF00, 0x1DF1E); (0x1E100, 0x1E12C);
   (0x1E137, 0x1E13D); (0x1E14E, 0x1E14E); (0x1E290, 0x1E2AD);
   (0x1E2C0, 0x1E2EB); (0x1E7E0, 0x1E7E6); (0x1E7E8, 0x1E7EB);
   (0x1E7ED, 0x1E7EE); (0x1E7F0, 0x1E7FE); (0x1E800, 0x1E8C4);
   (0x1E900, 0x1E943); (0x1E94B, 0x1E94B); (0x1EE00, 0x1EE03);
   (0x1EE05, 0x1EE1F); (0x1EE21, 0x1EE22); (0x1EE24, 0x1EE24);
   (0x1EE27, 0x1EE27); (0x1EE29, 0x1EE32); (0x1EE34, 0x1EE37);
   (0x1EE39, 0x1EE39); (0x1EE3B, 0x1EE3B); (0x1EE42, 0x1EE42);
   (0x1EE47, 0x1EE47); (0x1EE49, 0x1EE49); (0x1EE4B, 0x1EE4B);
   (0x1EE4D, 0x1EE4F); (0x1EE51, 0x1EE52); (0x1EE54, 0x1EE54);
   (0x1EE57, 0x1EE57); (0x1EE59, 0x1EE59); (0x1EE5B, 0x1EE5B);
   (0x1EE5D, 0x1EE5D); (0x1EE5F, 0x1EE5F); (0x1EE61, 0x1EE62);
   (0x1EE64, 0x1EE64); (0x1EE67, 0x1EE6A); (0x1EE6C, 0x1EE72);
   (0x1EE74, 0x1EE77); (0x1EE79, 0x1EE7C); (0x1EE7E, 0x1EE7E);
   (0x1EE80, 0x1EE89); (0x1EE8B, 0x1EE9B); (0x1EEA1, 0x1EEA3);
   (0x1EEA5, 0x1EEA9); (0x1EEAB, 0x1EEBB); (0x20000, 0x2A6DF);
   (0x2A700, 0x2B738); (0x2B740, 0x2B81D); (0x2B820, 0x2CEA1);
   (0x2CEB0, 0x2EBE0); (0x2F800, 0x2FA1D); (0x30000, 0x3134A)].

(** Code points [c] with [chr(c).isupper()], as inclusive ranges: the derived
    property Uppercase (Lu and Other_Uppercase) of the same database. *)
Definition upper_table : list (codepoint * codepoint) :=
 [(0x41, 0x5A); (0xC0, 0xD6); (0xD8, 0xDE); (0x100, 0x100); (0x102, 0x102);
   (0x104, 0x104); (0x106, 0x106); (0x108, 0x108); (0x10A, 0x10A);
   (0x10C, 0x10C); (0x10E, 0x10E); (0x110, 0x110); (0x112, 0x112);
   (0x114, 0x114); (0x116, 0x116); (0x118, 0x118); (0x11A, 0x11A);
   (0x11C, 0x11C); (0x11E, 0x11E); (0x120, 0x120); (0x122, 0x122);
   (0x124, 0x124); (0x126, 0x126); (0x128, 0x128); (0x12A, 0x12A);
   (0x12C, 0x12C); (0x12E, 0x12E); (0x130, 0x130); (0x132, 0x132);
   (0x134, 0x134); (0x136, 0x136); (0x139, 0x139); (0x13B, 0x13B);
   (0x13D, 0x13D); (0x13F, 0x13F); (0x141, 0x141); (0x143, 0x143);
   (0x145, 0x145); (0x147, 0x147); (0x14A, 0x14A); (0x14C, 0x14C);
   (0x14E, 0x14E); (0x150, 0x150); (0x152, 0x152); (0x154, 0x154);
   (0x156, 0x156); (0x158, 0x158); (0x15A, 0x15A); (0x15C, 0x15C);
   (0x15E, 0x15E); (0x160, 0x160); (0x162, 0x162); (0x164, 0x164);
   (0x166, 0x166); (0x168, 0x168); (0x16A, 0x16A); (0x16C, 0x16C);
   (0x16E, 0x16E); (0x170, 0x170); (0x172, 0x172); (0x174, 0x174);
   (0x176, 0x176); (0x178, 0x179); (0x17B, 0x17B); (0x17D, 0x17D);
   (0x181, 0x182); (0x184, 0x184); (0x186, 0x187); (0x189, 0x18B);
   (0x18E, 0x191); (0x193, 0x194); (0x196, 0x198); (0x19C, 0x19D);
   (0x19F, 0x1A0); (0x1A2, 0x1A2); (0x1A4, 0x1A4); (0x1A6, 0x1A7);
   (0x1A9, 0x1A9); (0x1AC, 0x1AC); (0x1AE, 0x1AF); (0x1B1, 0x1B3);
   (0x1B5, 0x1B5); (0x1B7, 0x1B8); (0x1BC, 0x1BC); (0x1C4, 0x1C4);
   (0x1C7, 0x1C7); (0x1CA, 0x1CA); (0x1CD, 0x1CD); (0x1CF, 0x1CF);
   (0x1D1, 0x1D1); (0x1D3, 0x1D3); (0x1D5, 0x1D5); (0x1D7, 0x1D7);
   (0x1D9, 0x1D9); (0x1DB, 0x1DB); (0x1DE, 0x1DE); (0x1E0, 0x1E0);
   (0x1E2, 0x1E2); (0x1E4, 0x1E4); (0x1E6, 0x1E6); (0x1E8, 0x1E8);
   (0x1EA, 0x1EA); (0x1EC, 0x1EC); (0x1EE, 0x1EE); (0x1F1, 0x1F1);
   (0x1F4, 0x1F4); (0x1F6, 0x1F8); (0x1FA, 0x1FA); (0x1FC, 0x1FC);
   (0x1FE, 0x1FE); (0x200, 0x200); (0x202, 0x202); (0x204, 0x204);
   (0x206, 0x206); (0x208, 0x208); (0x20A, 0x20A); (0x20C, 0x20C);
   (0x20E, 0x20E); (0x210, 0x210); (0x212, 0x212); (0x214, 0x214);
   (0x216, 0x216); (0x218, 0x218); (0x21A, 0x21A); (0x21C, 0x21C);
   (0x21E, 0x21E); (0x220, 0x220); (0x222, 0x222); (0x224, 0x224);
   (0x226, 0x226); (0x228, 0x228); (0x22A, 0x22A); (0x22C, 0x22C);
   (0x22E, 0x22E); (0x230, 0x230); (0x232, 0x232); (0x23A, 0x23B);
   (0x23D, 0x23E); (0x241, 0x241); (0x243, 0x246); (0x248, 0x248);
   (0x24A, 0x24A); (0x24C, 0x24C); (0x24E, 0x24E); (0x370, 0x370);
   (0x372, 0x372); (0x376, 0x376); (0x37F, 0x37F); (0x386, 0x386);
   (0x388, 0x38A); (0x38C, 0x38C); (0x38E, 0x38F); (0x391, 0x3A1);
   (0x3A3, 0x3AB); (0x3CF, 0x3CF); (0x3D2, 0x3D4); (0x3D8, 0x3D8);
   (0x3DA, 0x3DA); (0x3DC, 0x3DC); (0x3DE, 0x3DE); (0x3E0, 0x3E0);
   (0x3E2, 0x3E2); (0x3E4, 0x3E4); (0x3E6, 0x3E6); (0x3E8, 0x3E8);
   (0x3EA, 0x3EA); (0x3EC, 0x3EC); (0x3EE, 0x3EE); (0x3F4, 0x3F4);
   (0x3F7, 0x3F7); (0x3F9, 0x3FA); (0x3FD, 0x42F); (0x460, 0x460);
   (0x462, 0x462); (0x464, 0x464); (0x466, 0x466); (0x468, 0x468);
   (0x46A, 0x46A); (0x46C, 0x46C); (0x46E, 0x46E); (0x470, 0x470);
   (0x472, 0x472); (0x474, 0x474); (0x476, 0x476); (0x478, 0x478);
   (0x47A, 0x47A); (0x47C, 0x47C); (0x47E, 0x47E); (0x480, 0x480);
   (0x48A, 0x48A); (0x48C, 0x48C); (0x48E, 0x48E); (0x490, 0x490);
   (0x492, 0x492); (0x494, 0x494); (0x496, 0x496); (0x498, 0x498);
   (0x49A, 0x49A); (0x49C, 0x49C); (0x49E, 0x49E); (0x4A0, 0x4A0);
   (0x4A2, 0x4A2); (0x4A4, 0x4A4); (0x4A6, 0x4A6); (0x4A8, 0x4A8);
   (0x4AA, 0x4AA); (0x4AC, 0x4AC); (0x4AE, 0x4AE); (0x4B0, 0x4B0);
   (0x4B2, 0x4B2); (0x4B4, 0x4B4); (0x4B6, 0x4B6); (0x4B8, 0x4B8);
   (0x4BA, 0x4BA); (0x4BC, 0x4BC); (0x4BE, 0x4BE); (0x4C0, 0x4C1);
   (0x4C3, 0x4C3); (0x4C5, 0x4C5); (0x4C7, 0x4C7); (0x4C9, 0x4C9);
   (0x4CB, 0x4CB); (0x4CD, 0x4CD); (0x4D0, 0x4D0); (0x4D2, 0x4D2);
   (0x4D4, 0x4D4); (0x4D6, 0x4D6); (0x4D8, 0x4D8); (0x4DA, 0x4DA);
   (0x4DC, 0x4DC); (0x4DE, 0x4DE); (0x4E0, 0x4E0); (0x4E2, 0x4E2);
   (0x4E4, 0x4E4); (0x4E6, 0x4E6); (0x4E8, 0x4E8); (0x4EA, 0x4EA);
   (0x4EC, 0x4EC); (0x4EE, 0x4EE); (0x4F0, 0x4F0); (0x4F2, 0x4F2);
   (0x4F4, 0x4F4); (0x4F6, 0x4F6); (0x4F8, 0x4F8); (0x4FA, 0x4FA);
   (0x4FC, 0x4FC); (0x4FE, 0x4FE); (0x500, 0x500); (0x502, 0x502);
   (0x504, 0x504); (0x506, 0x506); (0x508, 0x508); (0x50A, 0x50A);
   (0x50C, 0x50C); (0x50E, 0x50E); (0x510, 0x510); (0x512, 0x512);
   (0x514, 0x514); (0x516, 0x516); (0x518, 0x518); (0x51A, 0x51A);
   (0x51C, 0x51C); (0x51E, 0x51E); (0x520, 0x520); (0x522, 0x522);
   (0x524, 0x524); (0x526, 0x526); (0x528, 0x528); (0x52A, 0x52A);
   (0x52C, 0x52C); (0x52E, 0x52E); (0x531, 0x556); (0x10A0, 0x10C5);
   (0x10C7, 0x10C7); (0x10CD, 0x10CD); (0x13A0, 0x13F5); (0x1C90, 0x1CBA);
   (0x1CBD, 0x1CBF); (0x1E00, 0x1E00); (0x1E02, 0x1E02); (0x1E04, 0x1E04);
   (0x1E06, 0x1E06); (0x1E08, 0x1E08); (0x1E0A, 0x1E0A); (0x1E0C, 0x1E0C);
   (0x1E0E, 0x1E0E); (0x1E10, 0x1E10); (0x1E12, 0x1E12); (0x1E14, 0x1E14);
   (0x1E16, 0x1E16); (0x1E18, 0x1E18); (0x1E1A, 0x1E1A); (0x1E1C, 0x1E1C);
   (0x1E1E, 0x1E1E); (0x1E20, 0x1E20); (0x1E22, 0x1E22); (0x1E24, 0x1E24);
   (0x1E26, 0x1E26); (0x1E28, 0x1E28); (0x1E2A, 0x1E2A); (0x1E2C, 0x1E2C);
   (0x1E2E, 0x1E2E); (0x1E30, 0x1E30); (0x1E32, 0x1E32); (0x1E34, 0x1E34);
   (0x1E36, 0x1E36); (0x1E38, 0x1E38); (0x1E3A, 0x1E3A); (0x1E3C, 0x1E3C);
   (0x1E3E, 0x1E3E); (0x1E40, 0x1E40); (0x1E42, 0x1E42); (0x1E44, 0x1E44);
   (0x1E46, 0x1E46); (0x1E48, 0x1E48); (0x1E4A, 0x1E4A); (0x1E4C, 0x1E4C);
   (0x1E4E, 0x1E4E); (0x1E50, 0x1E50); (0x1E52, 0x1E52); (0x1E54, 0x1E54);
   (0x1E56, 0x1E56); (0x1E58, 0x1E58); (0x1E5A, 0x1E5A); (0x1E5C, 0x1E5C);
   (0x1E5E, 0x1E5E); (0x1E60, 0x1E60); (0x1E62, 0x1E62); (0x1E64, 0x1E64);
   (0x1E66, 0x1E66); (0x1E68, 0x1E68); (0x1E6A, 0x1E6A); (0x1E6C, 0x1E6C);
   (0x1E6E, 0x1E6E); (0x1E70, 0x1E70); (0x1E72, 0x1E72); (0x1E74, 0x1E74);
   (0x1E76, 0x1E76); (0x1E78, 0x1E78); (0x1E7A, 0x1E7A); (0x1E7C, 0x1E7C);
   (0x1E7E, 0x1E7E); (0x1E80, 0x1E80); (0x1E82, 0x1E82); (0x1E84, 0x1E84);
   (0x1E86, 0x1E86); (0x1E88, 0x1E88); (0x1E8A, 0x1E8A); (0x1E8C, 0x1E8C);
   (0x1E8E, 0x1E8E); (0x1E90, 0x1E90); (0x1E92, 0x1E92); (0x1E94, 0x1E94);
   (0x1E9E, 0x1E9E); (0x1EA0, 0x1EA0); (0x1EA2, 0x1EA2); (0x1EA4, 0x1EA4);
   (0x1EA6, 0x1EA6); (0x1EA8, 0x1EA8); (0x1EAA, 0x1EAA); (0x1EAC, 0x1EAC);
   (0x1EAE, 0x1EAE); (0x1EB0, 0x1EB0); (0x1EB2, 0x1EB2); (0x1EB4, 0x1EB4);
   (0x1EB6, 0x1EB6); (0x1EB8, 0x1EB8); (0x1EBA, 0x1EBA); (0x1EBC, 0x1EBC);
   (0x1EBE, 0x1EBE); (0x1EC0, 0x1EC0); (0x1EC2, 0x1EC2); (0x1EC4, 0x1EC4);
   (0x1EC6, 0x1EC6); (0x1EC8, 0x1EC8); (0x1ECA, 0x1ECA); (0x1ECC, 0x1ECC);
   (0x1ECE, 0x1ECE); (0x1ED0, 0x1ED0); (0x1ED2, 0x1ED2); (0x1ED4, 0x1ED4);
   (0x1ED6, 0x1ED6); (0x1ED8, 0x1ED8); (0x1EDA, 0x1EDA); (0x1EDC, 0x1EDC);
   (0x1EDE, 0x1EDE); (0x1EE0, 0x1EE0); (0x1EE2, 0x1EE2); (0x1EE4, 0x1EE4);
   (0x1EE6, 0x1EE6); (0x1EE8, 0x1EE8); (0x1EEA, 0x1EEA); (0x1EEC, 0x1EEC);
   (0x1EEE, 0x1EEE); (0x1EF0, 0x1EF0); (0x1EF2, 0x1EF2); (0x1EF4, 0x1EF4);
   (0x1EF6, 0x1EF6); (0x1EF8, 0x1EF8); (0x1EFA, 0x1EFA); (0x1EFC, 0x1EFC);
   (0x1EFE, 0x1EFE); (0x1F08, 0x1F0F); (0x1F18, 0x1F1D); (0x1F28, 0x1F2F);
   (0x1F38, 0x1F3F); (0x1F48, 0x1F4D); (0x1F59, 0x1F59); (0x1F5B, 0x1F5B);
   (0x1F5D, 0x1F5D); (0x1F5F, 0x1F5F); (0x1F68, 0x1F6F); (0x1FB8, 0x1FBB);
   (0x1FC8, 0x1FCB); (0x1FD8, 0x1FDB); (0x1FE8, 0x1FEC); (0x1FF8, 0x1FFB);
   (0x2102, 0x2102); (0x2107, 0x2107); (0x210B, 0x210D); (0x2110, 0x2112);
   (0x2115, 0x2115); (0x2119, 0x211D); (0x2124, 0x2124); (0x2126, 0x2126);
   (0x2128, 0x2128); (0x212A, 0x212D); (0x2130, 0x2133); (0x213E, 0x213F);
   (0x2145, 0x2145); (0x2160, 0x216F); (0x2183, 0x2183); (0x24B6, 0x24CF);
   (0x2C00, 0x2C2F); (0x2C60, 0x2C60); (0x2C62, 0x2C64); (0x2C67, 0x2C67);
   (0x2C69, 0x2C69); (0x2C6B, 0x2C6B); (0x2C6D, 0x2C70); (0x2C72, 0x2C72);
   (0x2C75, 0x2C75); (0x2C7E, 0x2C80); (0x2C82, 0x2C82); (0x2C84, 0x2C84);
   (0x2C86, 0x2C86); (0x2C88, 0x2C88); (0x2C8A, 0x2C8A); (0x2C8C, 0x2C8C);
   (0x2C8E, 0x2C8E); (0x2C90, 0x2C90); (0x2C92, 0x2C92); (0x2C94, 0x2C94);
   (0x2C96, 0x2C96); (0x2C98, 0x2C98); (0x2C9A, 0x2C9A); (0x2C9C, 0x2C9C);
   (0x2C9E, 0x2C9E); (0x2CA0, 0x2CA0); (0x2CA2, 0x2CA2); (0x2CA4, 0x2CA4);
   (0x2CA6, 0x2CA6); (0x2CA8, 0x2CA8); (0x2CAA, 0x2CAA); (0x2CAC, 0x2CAC);
   (0x2CAE, 0x2CAE); (0x2CB0, 0x2CB0); (0x2CB2, 0x2CB2); (0x2CB4, 0x2CB4);
   (0x2CB6, 0x2CB6); (0x2CB8, 0x2CB8); (0x2CBA, 0x2CBA); (0x2CBC, 0x2CBC);
   (0x2CBE, 0x2CBE); (0x2CC0, 0x2CC0); (0x2CC2, 0x2CC2); (0x2CC4, 0x2CC4);
   (0x2CC6, 0x2CC6); (0x2CC8, 0x2CC8); (0x2CCA, 0x2CCA); (0x2CCC, 0x2CCC);
   (0x2CCE, 0x2CCE); (0x2CD0, 0x2CD0); (0x2CD2, 0x2CD2); (0x2CD4, 0x2CD4);
   (0x2CD6, 0x2CD6); (0x2CD8, 0x2CD8); (0x2CDA, 0x2CDA); (0x2CDC, 0x2CDC);
   (0x2CDE, 0x2CDE); (0x2CE0, 0x2CE0); (0x2CE2, 0x2CE2); (0x2CEB, 0x2CEB);
   (0x2CED, 0x2CED); (0x2CF2, 0x2CF2); (0xA640, 0xA640); (0xA642, 0xA642);
   (0xA644, 0xA644); (0xA646, 0xA646); (0xA648, 0xA648); (0xA64A, 0xA64A);
   (0xA64C, 0xA64C); (0xA64E, 0xA64E); (0xA650, 0xA650); (0xA652, 0xA652);
   (0xA654, 0xA654); (0xA656, 0xA656); (0xA658, 0xA658); (0xA65A, 0xA65A);
   (0xA65C, 0xA65C); (0xA65E, 0xA65E); (0xA660, 0xA660); (0xA662, 0xA662);
   (0xA664, 0xA664); (0xA666, 0xA666); (0xA668, 0xA668); (0xA66A, 0xA66A);
   (0xA66C, 0xA66C); (0xA680, 0xA680); (0xA682, 0xA682); (0xA684, 0xA684);
   (0xA686, 0xA686); (0xA688, 0xA688); (0xA68A, 0xA68A); (0xA68C, 0xA68C);
   (0xA68E, 0xA68E); (0xA690, 0xA690); (0xA692, 0xA692); (0xA694, 0xA694);
   (0xA696, 0xA696); (0xA698, 0xA698); (0xA69A, 0xA69A); (0xA722, 0xA722);
   (0xA724, 0xA724); (0xA726, 0xA726); (0xA728, 0xA728); (0xA72A, 0xA72A);
   (0xA72C, 0xA72C); (0xA72E, 0xA72E); (0xA732, 0xA732); (0xA734, 0xA734);
   (0xA736, 0xA736); (0xA738, 0xA738); (0xA73A, 0xA73A); (0xA73C, 0xA73C);
   (0xA73E, 0xA73E); (0xA740, 0xA740); (0xA742, 0xA742); (0xA744, 0xA744);
   (0xA746, 0xA746); (0xA748, 0xA748); (0xA74A, 0xA74A); (0xA74C, 0xA74C);
   (0xA74E, 0xA74E); (0xA750, 0xA750); (0xA752, 0xA752); (0xA754, 0xA754);
   (0xA756, 0xA756); (0xA758, 0xA758); (0xA75A, 0xA75A); (0xA75C, 0xA75C);
   (0xA75E, 0xA75E); (0xA760, 0xA760); (0xA762, 0xA762); (0xA764, 0xA764);
   (0xA766, 0xA766); (0xA768, 0xA768); (0xA76A, 0xA76A); (0xA76C, 0xA76C);
   (0xA76E, 0xA76E); (0xA779, 0xA779); (0xA77B, 0xA77B); (0xA77D, 0xA77E);
   (0xA780, 0xA780); (0xA782, 0xA782); (0xA784, 0xA784); (0xA786, 0xA786);
   (0xA78B, 0xA78B); (0xA78D, 0xA78D); (0xA790, 0xA790); (0xA792, 0xA792);
   (0xA796, 0xA796); (0xA798, 0xA798); (0xA79A, 0xA79A); (0xA79C, 0xA79C);
   (0xA79E, 0xA79E); (0xA7A0, 0xA7A0); (0xA7A2, 0xA7A2); (0xA7A4, 0xA7A4);
   (0xA7A6, 0xA7A6); (0xA7A8, 0xA7A8); (0xA7AA, 0xA7AE); (0xA7B0, 0xA7B4);
   (0xA7B6, 0xA7B6); (0xA7B8, 0xA7B8); (0xA7BA, 0xA7BA); (0xA7BC, 0xA7BC);
   (0xA7BE, 0xA7BE); (0xA7C0, 0xA7C0); (0xA7C2, 0xA7C2); (0xA7C4, 0xA7C7);
   (0xA7C9, 0xA7C9); (0xA7D0, 0xA7D0); (0xA7D6, 0xA7D6); (0xA7D8, 0xA7D8);
   (0xA7F5, 0xA7F5); (0xFF21, 0xFF3A); (0x10400, 0x10427);
   (0x104B0, 0x104D3); (0x10570, 0x1057A); (0x1057C, 0x1058A);
   (0x1058C, 0x10592); (0x10594, 0x10595); (0x10C80, 0x10CB2);
   (0x118A0, 0x118BF); (0x16E40, 0x16E5F); (0x1D400, 0x1D419);
   (0x1D434, 0x1D44D); (0x1D468, 0x1D481); (0x1D49C, 0x1D49C);
   (0x1D49E, 0x1D49F); (0x1D4A2, 0x1D4A2); (0x1D4A5, 0x1D4A6);
   (0x1D4A9, 0x1D4AC); (0x1D4AE, 0x1D4B5); (0x1D4D0, 0x1D4E9);
   (0x1D504, 0x1D505); (0x1D507, 0x1D50A); (0x1D50D, 0x1D514);
   (0x1D516, 0x1D51C); (0x1D538, 0x1D539); (0x1D53B, 0x1D53E);
   (0x1D540, 0x1D544); (0x1D546, 0x1D546); (0x1D54A, 0x1D550);
   (0x1D56C, 0x1D585); (0x1D5A0, 0x1D5B9); (0x1D5D4, 0x1D5ED);
   (0x1D608, 0x1D621); (0x1D63C, 0x1D655); (0x1D670, 0x1D689);
   (0x1D6A8, 0x1D6C0); (0x1D6E2, 0x1D6FA); (0x1D71C, 0x1D734);
   (0x1D756, 0x1D76E); (0x1D790, 0x1D7A8); (0x1D7CA, 0x1D7CA);
   (0x1E900, 0x1E921); (0x1F130, 0x1F149); (0x1F150, 0x1F169);
   (0x1F170, 0x1F189)].

End unicodedata.

#[export] Instance cpython : StrMethods := {|
  isupper := in_ranges unicodedata.upper_table;
  isalpha := in_ranges unicodedata.alpha_table
|}.

(** ** Configuration *)

(** The two keys of [config.json] the bot reads; [None] is an absent key. *)
Record config : Type := {
  caps_threshold : option float;
  min_alpha_chars : option Z
}.

(** [dict.get(key, default)]. *)
Definition get {A : Type} (entry : option A) (default : A) : A :=
  match entry with
  | Some v => v
  | None => default
  end.

(** The binary64 value of the literal [0.6]. *)
Definition float_0_6 : float := 0x1.3333333333333p-1%float.

Definition CAPS_THRESHOLD (CONFIG : config) : float :=
  get (caps_threshold CONFIG) float_0_6.

Definition MIN_ALPHA_CHARS (CONFIG : config) : Z :=
  get (min_alpha_chars CONFIG) 5.

(** ** The module [re], as far as the two patterns of the bot use it *)

Module re.

(** A pattern is a sequence of character sets, each with its quantifier:
    none, [?] or [+] (both greedy).  A literal character is a set with one
    element. *)
Inductive quantifier : Type :=
| Once
| Optional
| OneOrMore.

Definition charset : Type := list (codepoint * codepoint).
Definition item : Type := (charset * quantifier)%type.
Definition pattern : Type := list item.

Definition lit (a : ascii) : item := ([(ord a, ord a)], Once).

(** The rest of a [+] after its first character: as many more characters of
    the set as possible, giving them back one by one while the continuation
    [k] fails. *)
Fixpoint match_more (cs : charset) (k : str -> bool) (s : str) : bool :=
  match s with
  | c :: s' => (in_ranges cs c && match_more cs k s') || k s
  | [] => k s
  end.

(** [re.match]: does the pattern match at the start of [s]? *)
Fixpoint match_here (p : pattern) (s : str) : bool :=
  match p with
  | [] => true
  | (cs, Once) :: p' =>
      match s with
      | c :: s' => in_ranges cs c && match_here p' s'
      | [] => false
      end
  | (cs, Optional) :: p' =>
      match s with
      | c :: s' => (in_ranges cs c && match_here p' s') || match_here p' s
      | [] => match_here p' s
      end
  | (cs, OneOrMore) :: p' =>
      match s with
      | c :: s' => in_ranges cs c && match_more cs (match_here p') s'
      | [] => false
      end
  end.

(** [re.search], as a truth value: does the pattern match at some position
    of [s]? *)
Fixpoint search (p : pattern) (s : str) : bool :=
  match_here p s ||
  match s with
  | _ :: s' => search p s'
  | [] => false
  end.

(** The words a pattern denotes. *)
Definition item_lang (it : item) (w : str) : Prop :=
  match snd it with
  | Once => exists c, w = [c] /\ in_ranges (fst it) c = true
  | Optional => w = [] \/ exists c, w = [c] /\ in_ranges (fst it) c = true
  | OneOrMore => w <> [] /\ Forall (fun c => in_ranges (fst it) c = true) w
  end.

Fixpoint lang (p : pattern) (w : str) : Prop :=
  match p with
  | [] => w = []
  | it :: p' => exists w1 w2, w = w1 ++ w2 /\ item_lang it w1 /\ lang p' w2
  end.

End re.

(** ** The detectors *)

(** The character class of [EMOJI_PATTERN]. *)
Definition emoji_set : re.charset :=
  [(0x1F600, 0x1F64F);
   (0x1F300, 0x1F5FF);
   (0x1F680, 0x1F6FF);
   (0x1F900, 0x1F9FF);
   (0x2702, 0x27B0);
   (0x24C2, 0x1F251)].

Definition EMOJI_PATTERN : re.pattern := [(emoji_set, re.OneOrMore)].

(** [[a-zA-Z0-9_]] and [[0-9]]. *)
Definition name_set : re.charset :=
  [(ord "a", ord "z"); (ord "A", ord "Z"); (ord "0", ord "9"); (ord "_", ord "_")].

Definition digit_set : re.charset := [(ord "0", ord "9")].

(** [<[a]?:[a-zA-Z0-9_]+:[0-9]+>] *)
Definition CUSTOM_EMOJI_PATTERN : re.pattern :=
  [re.lit "<";
   ([(ord "a", ord "a")], re.Optional);
   re.lit ":";
   (name_set, re.OneOrMore);
   re.lit ":";
   (digit_set, re.OneOrMore);
   re.lit ">"].

Definition contains_emojis (text : str) : bool :=
  if re.search EMOJI_PATTERN text then true
  else if re.search CUSTOM_EMOJI_PATTERN text then true
  else false.

Section CapsDetector.

Context {U : StrMethods}.
Variable CONFIG : config.

Definition caps_count (text : str) : Z :=
  sum (map (fun _ => 1) (filter isupper text)).

Definition alpha_count (text : str) : Z :=
  sum (map (fun _ => 1) (filter isalpha text)).

(** The condition is [alpha_count >= MIN_ALPHA_CHARS and caps_count /
    alpha_count > CAPS_THRESHOLD]: the division is evaluated only when the
    first conjunct holds. *)
Definition contains_too_much_caps (text : str) : result bool :=
  if alpha_count text >=? MIN_ALPHA_CHARS CONFIG then
    result_bind (truediv (caps_count text) (alpha_count text)) (fun ratio =>
    if float_gt ratio (CAPS_THRESHOLD CONFIG) then Ok true else Ok false)
  else Ok false.

End CapsDetector.

(** ** The platform client library, as far as the handler uses it *)

Module discord.

(** The classes a message's channel can be an instance of. *)
Inductive channel_class : Type :=
| TextChannel
| VoiceChannel
| StageChannel
| Thread
| DMChannel
| GroupChannel
| PartialMessageable.

Record Channel : Type := {
  class_of : channel_class;
  channel_id : Z
}.

Record User : Type := {
  id : Z;
  mention : str
}.

Record Message : Type := {
  author : User;
  channel : Channel;
  content : str;
  mentions : list User;
  mention_everyone : bool
}.

(** [isinstance(channel, discord.TextChannel)] *)
Definition is_TextChannel (ch : Channel) : bool :=
  match class_of ch with
  | TextChannel => true
  | _ => false
  end.

(** [a == b] on users compares their ids. *)
Definition User_eq (a b : User) : bool := id a =? id b.

(** What has been passed to [channel.send], oldest first. *)
Definition outbox : Type := list (Channel * str).

(** A coroutine of the handler: it may send, and it returns or raises. *)
Definition io (A : Type) : Type := outbox -> result A * outbox.

Definition ret {A : Type} (a : A) : io A := fun out => (Ok a, out).

Definition bind {A B : Type} (m : io A) (k : A -> io B) : io B :=
  fun out =>
    match m out with
    | (Ok a, out') => k a out'
    | (Raise e, out') => (Raise e, out')
    end.

Definition lift {A : Type} (r : result A) : io A := fun out => (r, out).

(** [await channel.send(text)], when the delivery succeeds; a failing
    delivery raises inside the library and is not modelled. *)
Definition send (ch : Channel) (text : str) : io unit :=
  fun out => (Ok tt, out ++ [(ch, text)]).

(** [user.mentioned_in(message)] is the library's: the handler is stated over
    any such predicate. *)
Class ClientUser : Type := {
  mentioned_in : User -> Message -> bool
}.

(** The library's own [mentioned_in], for the worked examples: an
    [@everyone] mention, or the user among the message's mentions. *)
Definition mentioned_in_py (user : User) (message : Message) : bool :=
  if mention_everyone message then true
  else existsb (fun u => User_eq u user) (mentions message).

End discord.

Import discord.

#[export] Instance discord_py : ClientUser := {|
  mentioned_in := mentioned_in_py
|}.

Notation "x <- m ;; k" := (bind m (fun x => k))
  (at level 61, m at next level, right associativity).

(** ** The handler *)

Definition caps_warning (message : Message) : str :=
  py "ugh, " ++ mention (author message)
  ++ py ", why are you shouting? it's rude. please use lowercase.".

Definition emoji_warning (message : Message) : str :=
  py "i see those silly little pictures, " ++ mention (author message)
  ++ py ". i find them deeply unserious. please desist.".

Definition acknowledgement (message : Message) : str :=
  py "yes, " ++ mention (author message)
  ++ py ". i'm here. and keep your voice down.".

Section OrbisClient.

Context {U : StrMethods} {D : ClientUser}.
Variable CONFIG : config.

(** [self_user] is [self.user], the bot's own account. *)
Definition on_message (self_user : User) (message : Message) : io unit :=
  if User_eq (author message) self_user then ret tt
  else if negb (is_TextChannel (channel message)) then ret tt
  else
    let content := content message in
    shouting <- lift (contains_too_much_caps CONFIG content) ;;
    if shouting then send (channel message) (caps_warning message)
    else if contains_emojis content then
      send (channel message) (emoji_warning message)
    else if mentioned_in self_user message then
      send (channel message) (acknowledgement message)
    else ret tt.

End OrbisClient.

(** ** The emoji detector as the specification words it *)

Definition emoji_codepoint (c : codepoint) : Prop :=
  0x1F600 <= c <= 0x1F64F \/ 0x1F300 <= c <= 0x1F5FF \/
  0x1F680 <= c <= 0x1F6FF \/ 0x1F900 <= c <= 0x1F9FF \/
  0x2702 <= c <= 0x27B0 \/ 0x24C2 <= c <= 0x1F251.

(** A character of [[A-Za-z0-9_]]. *)
Definition name_char (c : codepoint) : Prop :=
  ord "A" <= c <= ord "Z" \/ ord "a" <= c <= ord "z" \/
  ord "0" <= c <= ord "9" \/ c = ord "_".

Definition digit (c : codepoint) : Prop := ord "0" <= c <= ord "9".

(** ['<'], optional ['a'], [':'], a name, [':'], an id, ['>']. *)
Definition custom_emoji_markup (w : str) : Prop :=
  exists a name digits,
    w = py "<" ++ a ++ py ":" ++ name ++ py ":" ++ digits ++ py ">" /\
    (a = [] \/ a = py "a") /\
    name <> [] /\ Forall name_char name /\
    digits <> [] /\ Forall digit digits.

Definition hasEmoji (text : str) : Prop :=
  (exists c, In c text /\ emoji_codepoint c) \/
  (exists before w after, text = before ++ w ++ after /\ custom_emoji_markup w).

(** The CJK unified ideographs: the main block and Extension A in the Basic
    Multilingual Plane, Extensions B to G above it. *)
Definition cjk_ideograph (c : codepoint) : Prop :=
  0x3400 <= c <= 0x4DBF \/ 0x4E00 <= c <= 0x9FFF \/
  0x20000 <= c <= 0x2A6DF \/ 0x2A700 <= c <= 0x2B738 \/
  0x2B740 <= c <= 0x2B81D \/ 0x2B820 <= c <= 0x2CEA1 \/
  0x2CEB0 <= c <= 0x2EBE0 \/ 0x30000 <= c <= 0x3134A.

Definition hiragana (c : codepoint) : Prop := 0x3040 <= c <= 0x309F.
Definition katakana (c : codepoint) : Prop := 0x30A0 <= c <= 0x30FF.
Definition hangul_syllable (c : codepoint) : Prop := 0xAC00 <= c <= 0xD7A3.

(** ** Worked inputs *)

Definition default_config : config :=
  {| caps_threshold := None; min_alpha_chars := None |}.

Definition orbis : User := {| id := 1; mention := py "<@1>" |}.
Definition alice : User := {| id := 2; mention := py "<@2>" |}.
Definition general : Channel := {| class_of := TextChannel; channel_id := 10 |}.
Definition lounge : Channel := {| class_of := VoiceChannel; channel_id := 11 |}.

Definition message_of (who : User) (where_ : Channel) (text : str)
  (mentioned : list User) : Message :=
  {| author := who; channel := where_; content := text;
     mentions := mentioned; mention_everyone := false |}.

(** A configuration with ["min_alpha_chars": 0]. *)
Definition zero_minimum : config :=
  {| caps_threshold := None; min_alpha_chars := Some 0 |}.

(** "HELLO" followed by U+1F600, a shouted text with an emoji. *)
Definition shouted_emoji : str := py "HELLO " ++ [0x1F600].

(** U+2167, ROMAN NUMERAL EIGHT: uppercase but not a letter. *)
Definition roman_eight : str := [0x2167].

(** A greeting written in hiragana. *)
Definition konnichiwa : str := [0x3053; 0x3093; 0x306B; 0x3061; 0x306F].

(** U+20000 and U+20001, the first two ideographs of Extension B. *)
Definition extension_b : str := [0x20000; 0x20001].

(** ** Comparing tables of ranges *)

(** Is the range [r] inside one range of [rs]? *)
Definition range_within (rs : list (codepoint * codepoint)) (r : codepoint * codepoint) : bool :=
  existsb (fun r' => (fst r' <=? fst r) && (snd r <=? snd r')) rs.

Definition ranges_subset (a b : list (codepoint * codepoint)) : bool :=
  forallb (range_within b) a.

Definition ranges_disjoint (a b : list (codepoint * codepoint)) : bool :=
  forallb (fun r => forallb (fun r' => (snd r <? fst r') || (snd r' <? fst r)) b) a.

(** The uppercase characters that are not letters: the Roman numerals
    U+2160-216F, the circled capitals U+24B6-24CF and the squared and
    negative capitals U+1F130-1F149, U+1F150-1F169, U+1F170-1F189. *)
Definition uppercase_nonletters : list (codepoint * codepoint) :=
  [(0x2160, 0x216F); (0x24B6, 0x24CF);
   (0x1F130, 0x1F149); (0x1F150, 0x1F169); (0x1F170, 0x1F189)].

(** * Properties *)

(** ** Counting and comparing *)

Lemma fold_left_add_ones (A : Type) (l : list A) (acc : Z) :
  fold_left Z.add (map (fun _ => 1) l) acc = acc + Z.of_nat (length l).
Proof.
  revert acc; induction l as [|x l IH]; intros acc.
  - simpl; lia.
  - cbn [map fold_left length]. rewrite IH. lia.
Qed.

Lemma sum_ones (A : Type) (l : list A) :
  sum (map (fun _ => 1) l) = Z.of_nat (length l).
Proof. unfold sum. rewrite fold_left_add_ones. lia. Qed.

Lemma filter_length_mono (A : Type) (f g : A -> bool) (l : list A) :
  Forall (fun x => f x = true -> g x = true) l ->
  (length (filter f l) <= length (filter g l))%nat.
Proof.
  induction 1 as [|x l Hx _ IH]; simpl; [lia|].
  destruct (f x) eqn:Ef.
  - rewrite (Hx eq_refl). simpl. lia.
  - destruct (g x); simpl; lia.
Qed.

Lemma SFcompare_Eq_sym (x y : spec_float) :
  SFcompare x y = Some Eq -> SFcompare y x = Some Eq.
Proof.
  destruct x as [sx|sx| |sx mx ex], y as [sy|sy| |sy my ey]; simpl;
    try discriminate; try reflexivity;
    try (destruct sx; discriminate); try (destruct sy; discriminate).
  - destruct sx, sy; try discriminate; reflexivity.
  - destruct sx, sy; try discriminate;
      destruct (Z.compare ex ey) eqn:Ee; try discriminate;
      apply Z.compare_eq in Ee; subst ey; rewrite Z.compare_refl.
    + destruct (Pos.compare_cont Eq mx my) eqn:Em; try discriminate.
      apply Pos.compare_eq in Em; subst my. now rewrite Pos.compare_cont_refl.
    + intros Hm. injection Hm as Hm.
      apply Pos.compare_eq in Hm; subst my. now rewrite Pos.compare_cont_refl.
Qed.

(** A ratio equal to the threshold is not greater than it. *)
Lemma float_gt_of_eqb (x y : float) :
  PrimFloat.eqb x y = true -> float_gt x y = false.
Proof.
  unfold float_gt. rewrite FloatAxioms.eqb_spec, FloatAxioms.ltb_spec.
  unfold SFeqb, SFltb.
  destruct (SFcompare (Prim2SF x) (Prim2SF y)) as [[| |]|] eqn:E; try discriminate.
  intros _. now rewrite (SFcompare_Eq_sym _ _ E).
Qed.

Lemma truediv_Ok (a b : Z) :
  b <> 0 -> truediv a b = Ok (PrimFloat.div (float_of_int a) (float_of_int b)).
Proof. intros Hb. unfold truediv. now destruct (Z.eqb_spec b 0). Qed.

(** ** The caps detector *)

Section CapsDetectorFacts.

Context {U : StrMethods}.
Variable CONFIG : config.

Lemma caps_count_length (text : str) :
  caps_count text = Z.of_nat (length (filter isupper text)).
Proof. apply sum_ones. Qed.

Lemma alpha_count_length (text : str) :
  alpha_count text = Z.of_nat (length (filter isalpha text)).
Proof. apply sum_ones. Qed.

(** With a minimum of at least one letter the guard protects the division:
    the detector returns a boolean on every string. *)
Lemma contains_too_much_caps_total (text : str) :
  1 <= MIN_ALPHA_CHARS CONFIG ->
  exists b, contains_too_much_caps CONFIG text = Ok b.
Proof.
  intros Hmin. unfold contains_too_much_caps.
  destruct (alpha_count text >=? MIN_ALPHA_CHARS CONFIG) eqn:E.
  - apply Z.geb_le in E. rewrite truediv_Ok by lia. simpl.
    destruct (float_gt _ _); eauto.
  - eauto.
Qed.

(** C1 (the code departs from it). With [min_alpha_chars] configured as 0 (or
    less), the guard [alpha_count >= MIN_ALPHA_CHARS] lets a string without
    letters through to the division: [contains_too_much_caps] raises
    [ZeroDivisionError] instead of returning [False]. *)
Theorem contains_too_much_caps_divides_by_zero (text : str) :
  MIN_ALPHA_CHARS CONFIG <= 0 ->
  alpha_count text = 0 ->
  contains_too_much_caps CONFIG text = Raise ZeroDivisionError.
Proof.
  intros Hmin Halpha. unfold contains_too_much_caps. rewrite Halpha.
  destruct (0 >=? MIN_ALPHA_CHARS CONFIG) eqn:E.
  - reflexivity.
  - rewrite Z.geb_leb in E. apply Z.leb_gt in E. lia.
Qed.

(** C2. [contains_too_much_caps] returns [True] exactly when there are at
    least [MIN_ALPHA_CHARS] letters and the ratio [caps_count / alpha_count]
    is strictly greater than [CAPS_THRESHOLD]; with fewer letters it returns
    [False] whatever the ratio, and a ratio equal to the threshold returns
    [False]. *)
Theorem contains_too_much_caps_iff (text : str) :
  (contains_too_much_caps CONFIG text = Ok true <->
   MIN_ALPHA_CHARS CONFIG <= alpha_count text /\
   exists ratio, truediv (caps_count text) (alpha_count text) = Ok ratio /\
                 float_gt ratio (CAPS_THRESHOLD CONFIG) = true) /\
  (alpha_count text < MIN_ALPHA_CHARS CONFIG ->
   contains_too_much_caps CONFIG text = Ok false) /\
  (forall ratio,
     MIN_ALPHA_CHARS CONFIG <= alpha_count text ->
     truediv (caps_count text) (alpha_count text) = Ok ratio ->
     PrimFloat.eqb ratio (CAPS_THRESHOLD CONFIG) = true ->
     contains_too_much_caps CONFIG text = Ok false).
Proof.
  unfold contains_too_much_caps. split; [split|split].
  - intros H.
    destruct (alpha_count text >=? MIN_ALPHA_CHARS CONFIG) eqn:E; [|discriminate].
    split; [now apply Z.geb_le|].
    destruct (truediv (caps_count text) (alpha_count text)) as [ratio|e];
      simpl in H; [|discriminate].
    exists ratio. split; [reflexivity|].
    destruct (float_gt ratio (CAPS_THRESHOLD CONFIG)); [reflexivity|discriminate].
  - intros [Hmin [ratio [Hdiv Hgt]]].
    apply Z.geb_le in Hmin. rewrite Hmin, Hdiv. simpl. now rewrite Hgt.
  - intros Hlt.
    destruct (alpha_count text >=? MIN_ALPHA_CHARS CONFIG) eqn:E; [|reflexivity].
    apply Z.geb_le in E. lia.
  - intros ratio Hmin Hdiv Heq.
    apply Z.geb_le in Hmin. rewrite Hmin, Hdiv. simpl.
    now rewrite (float_gt_of_eqb _ _ Heq).
Qed.

(** C3 (as the code has it). [caps_count] is the number of characters with
    [isupper] and [alpha_count] the number with [isalpha], two independent
    classifications; [caps_count <= alpha_count] holds for a string each of
    whose uppercase characters is alphabetic. *)
Theorem caps_count_le_alpha_count (text : str) :
  caps_count text = Z.of_nat (length (filter isupper text)) /\
  alpha_count text = Z.of_nat (length (filter isalpha text)) /\
  (Forall (fun c => isupper c = true -> isalpha c = true) text ->
   caps_count text <= alpha_count text).
Proof.
  split; [apply caps_count_length|]. split; [apply alpha_count_length|].
  intros Hsub. rewrite caps_count_length, alpha_count_length.
  apply Nat2Z.inj_le. now apply filter_length_mono.
Qed.

End CapsDetectorFacts.

(** ** The matcher against the words of a pattern *)

Lemma in_ranges_iff (rs : list (codepoint * codepoint)) (c : codepoint) :
  in_ranges rs c = true <-> exists lo hi, In (lo, hi) rs /\ lo <= c <= hi.
Proof.
  unfold in_ranges. rewrite existsb_exists. split.
  - intros [[lo hi] [Hin Hc]]. simpl in Hc.
    apply andb_true_iff in Hc as [H1 H2]. exists lo, hi. split; [assumption|lia].
  - intros [lo [hi [Hin Hc]]]. exists (lo, hi). split; [assumption|].
    simpl. apply andb_true_iff. split; lia.
Qed.

Lemma match_more_spec (cs : re.charset) (k : str -> bool) (s : str) :
  re.match_more cs k s = true <->
  exists w rest,
    s = w ++ rest /\ Forall (fun c => in_ranges cs c = true) w /\ k rest = true.
Proof.
  induction s as [|c s IH]; simpl.
  - split.
    + intros Hk. exists [], []. auto.
    + intros [w [rest [Hs [_ Hk]]]]. symmetry in Hs.
      apply app_eq_nil in Hs as [_ ->]. exact Hk.
  - rewrite orb_true_iff, andb_true_iff, IH. split.
    + intros [[Hc [w [rest [-> [Hw Hk]]]]]|Hk].
      * exists (c :: w), rest. auto.
      * exists [], (c :: s). auto.
    + intros [[|c' w] [rest [Hs [Hw Hk]]]]; simpl in Hs.
      * right. now subst rest.
      * injection Hs as <- ->. inversion Hw; subst. left. split; [assumption|].
        exists w, rest. auto.
Qed.

Lemma match_here_spec (p : re.pattern) :
  forall s, re.match_here p s = true <-> exists w rest, s = w ++ rest /\ re.lang p w.
Proof.
  induction p as [|[cs q] p IH]; intros s.
  - simpl. split; [|reflexivity]. intros _. exists [], s. auto.
  - destruct q; cbn [re.match_here re.lang re.item_lang fst snd].
    + (* one character *)
      split.
      * destruct s as [|c s]; [discriminate|]. intros H.
        apply andb_true_iff in H as [Hc H]. apply IH in H as [w [rest [-> Hw]]].
        exists (c :: w), rest. split; [reflexivity|].
        exists [c], w. split; [reflexivity|]. split; [|assumption]. eauto.
      * intros [w [rest [-> [w1 [w2 [-> [[c [-> Hc]] Hw2]]]]]]]. simpl.
        rewrite Hc. simpl. apply IH. eauto.
    + (* optional character *)
      split.
      * intros H.
        assert (Hcases : (exists c s', s = c :: s' /\ in_ranges cs c = true /\
                                        re.match_here p s' = true)
                         \/ re.match_here p s = true).
        { destruct s as [|c s]; [now right|].
          apply orb_true_iff in H as [H|H]; [|now right].
          apply andb_true_iff in H as [Hc H]. left. eauto. }
        destruct Hcases as [[c [s' [-> [Hc H']]]]|H'].
        -- apply IH in H' as [w [rest [-> Hw]]].
           exists (c :: w), rest. split; [reflexivity|].
           exists [c], w. split; [reflexivity|]. split; [|assumption]. eauto.
        -- apply IH in H' as [w [rest [-> Hw]]].
           exists w, rest. split; [reflexivity|].
           exists [], w. split; [reflexivity|]. split; [|assumption]. now left.
      * intros [w [rest [-> [w1 [w2 [-> [[->|[c [-> Hc]]] Hw2]]]]]]].
        -- simpl. assert (H : re.match_here p (w2 ++ rest) = true) by (apply IH; eauto).
           destruct (w2 ++ rest); [assumption|]. rewrite H. apply orb_true_r.
        -- simpl. rewrite Hc. simpl. apply orb_true_iff. left. apply IH. eauto.
    + (* one or more characters *)
      split.
      * destruct s as [|c s]; [discriminate|]. intros H.
        apply andb_true_iff in H as [Hc H].
        apply match_more_spec in H as [u [rest' [-> [Hu H]]]].
        apply IH in H as [w [rest [-> Hw]]].
        exists ((c :: u) ++ w), rest. split; [now rewrite <- !app_assoc|].
        exists (c :: u), w. split; [reflexivity|]. split; [|assumption].
        split; [discriminate|]. now constructor.
      * intros [w [rest [-> [w1 [w2 [-> [[Hne Hw1] Hw2]]]]]]].
        destruct w1 as [|c u]; [contradiction|]. inversion Hw1; subst.
        simpl. apply andb_true_iff. split; [assumption|].
        apply match_more_spec. exists u, (w2 ++ rest).
        split; [now rewrite <- app_assoc|]. split; [assumption|].
        apply IH. eauto.
Qed.

Lemma search_spec (p : re.pattern) (s : str) :
  re.search p s = true <->
  exists before w after, s = before ++ w ++ after /\ re.lang p w.
Proof.
  induction s as [|c s IH]; cbn [re.search].
  - rewrite orb_false_r, match_here_spec. split.
    + intros [w [rest [Hs Hw]]]. exists [], w, rest. auto.
    + intros [before [w [after [Hs Hw]]]]. symmetry in Hs.
      apply app_eq_nil in Hs as [_ Hs]. exists w, after. auto.
  - rewrite orb_true_iff, match_here_spec, IH. split.
    + intros [[w [rest [Hs Hw]]]|[before [w [after [Hs Hw]]]]].
      * exists [], w, rest. auto.
      * exists (c :: before), w, after. split; [now rewrite Hs|assumption].
    + intros [[|c' before] [w [after [Hs Hw]]]]; simpl in Hs.
      * left. eauto.
      * injection Hs as <- ->. right. eauto.
Qed.

(** ** The emoji detector *)

Lemma emoji_set_iff (c : codepoint) :
  in_ranges emoji_set c = true <-> emoji_codepoint c.
Proof.
  unfold emoji_codepoint, in_ranges, emoji_set. cbn [fst snd existsb].
  rewrite !orb_true_iff, !andb_true_iff, !Z.leb_le. intuition lia.
Qed.

Lemma name_set_iff (c : codepoint) : in_ranges name_set c = true <-> name_char c.
Proof.
  unfold name_char, in_ranges, name_set. cbn [fst snd existsb].
  rewrite !orb_true_iff, !andb_true_iff, !Z.leb_le. intuition lia.
Qed.

Lemma digit_set_iff (c : codepoint) : in_ranges digit_set c = true <-> digit c.
Proof.
  unfold digit, in_ranges, digit_set. cbn [fst snd existsb].
  rewrite !orb_true_iff, !andb_true_iff, !Z.leb_le. intuition lia.
Qed.

Lemma singleton_set_iff (a : ascii) (c : codepoint) :
  in_ranges [(ord a, ord a)] c = true <-> c = ord a.
Proof.
  unfold in_ranges. cbn [fst snd existsb].
  rewrite !orb_true_iff, !andb_true_iff, !Z.leb_le. intuition lia.
Qed.

(** The first pattern finds a match exactly when some character of the text
    is in its class. *)
Lemma search_EMOJI_PATTERN (text : str) :
  re.search EMOJI_PATTERN text = true <-> exists c, In c text /\ emoji_codepoint c.
Proof.
  rewrite search_spec. split.
  - intros [before [w [after [-> [w1 [w2 [-> [[Hne Hw1] _]]]]]]]].
    cbn [fst] in Hw1. destruct w1 as [|c u]; [contradiction|].
    inversion Hw1; subst. exists c. split.
    + apply in_or_app. right. now left.
    + now apply emoji_set_iff.
  - intros [c [Hin Hc]]. apply in_split in Hin as [before [after ->]].
    exists before, [c], after. split; [reflexivity|].
    exists [c], []. split; [reflexivity|]. split; [|reflexivity].
    split; [discriminate|]. constructor; [|constructor]. now apply emoji_set_iff.
Qed.

(** The words of the second pattern are the custom-emoji markups. *)
Lemma lang_CUSTOM_EMOJI_PATTERN (w : str) :
  re.lang CUSTOM_EMOJI_PATTERN w <-> custom_emoji_markup w.
Proof.
  unfold custom_emoji_markup, CUSTOM_EMOJI_PATTERN, re.lit.
  cbn [re.lang re.item_lang fst snd]. split.
  - intros [w1 [r1 [-> [[c1 [-> H1]] H]]]].
    destruct H as [w2 [r2 [-> [H2 H]]]].
    destruct H as [w3 [r3 [-> [[c3 [-> H3]] H]]]].
    destruct H as [w4 [r4 [-> [[Hne4 H4] H]]]].
    destruct H as [w5 [r5 [-> [[c5 [-> H5]] H]]]].
    destruct H as [w6 [r6 [-> [[Hne6 H6] H]]]].
    destruct H as [w7 [r7 [-> [[c7 [-> H7]] ->]]]].
    apply singleton_set_iff in H1, H3, H5, H7. subst c1 c3 c5 c7.
    exists w2, w4, w6. rewrite app_nil_r. split; [reflexivity|].
    split.
    { destruct H2 as [->|[c [-> Hc]]]; [now left|right].
      apply singleton_set_iff in Hc. now subst c. }
    split; [assumption|]. split.
    { revert H4. apply Forall_impl. intros c. apply name_set_iff. }
    split; [assumption|].
    revert H6. apply Forall_impl. intros c. apply digit_set_iff.
  - intros [a [name [digits [-> [Ha [Hn [Hname [Hd Hdigits]]]]]]]].
    exists (py "<"), (a ++ py ":" ++ name ++ py ":" ++ digits ++ py ">").
    split; [reflexivity|]. split.
    { exists (ord "<"). split; [reflexivity|]. now apply singleton_set_iff. }
    exists a, (py ":" ++ name ++ py ":" ++ digits ++ py ">").
    split; [reflexivity|]. split.
    { destruct Ha as [->| ->]; [now left|right].
      exists (ord "a"). split; [reflexivity|]. now apply singleton_set_iff. }
    exists (py ":"), (name ++ py ":" ++ digits ++ py ">").
    split; [reflexivity|]. split.
    { exists (ord ":"). split; [reflexivity|]. now apply singleton_set_iff. }
    exists name, (py ":" ++ digits ++ py ">").
    split; [reflexivity|]. split.
    { split; [assumption|]. revert Hname. apply Forall_impl.
      intros c. apply name_set_iff. }
    exists (py ":"), (digits ++ py ">").
    split; [reflexivity|]. split.
    { exists (ord ":"). split; [reflexivity|]. now apply singleton_set_iff. }
    exists digits, (py ">").
    split; [reflexivity|]. split.
    { split; [assumption|]. revert Hdigits. apply Forall_impl.
      intros c. apply digit_set_iff. }
    exists (py ">"), []. split; [reflexivity|]. split; [|reflexivity].
    exists (ord ">"). split; [reflexivity|]. now apply singleton_set_iff.
Qed.

Lemma contains_emojis_true (text : str) :
  contains_emojis text = true <->
  re.search EMOJI_PATTERN text = true \/ re.search CUSTOM_EMOJI_PATTERN text = true.
Proof.
  unfold contains_emojis.
  destruct (re.search EMOJI_PATTERN text), (re.search CUSTOM_EMOJI_PATTERN text);
    intuition discriminate.
Qed.

(** C4. [contains_emojis] returns [True] exactly when some code point of the
    text lies in one of the six ranges or the text contains a custom-emoji
    markup; with the five examples of the specification. *)
Theorem contains_emojis_iff :
  (forall text, contains_emojis text = true <-> hasEmoji text) /\
  contains_emojis (py "hello") = false /\
  contains_emojis (py "hello " ++ [0x1F600]) = true /\
  contains_emojis (py "<:smile:123456789012345678>") = true /\
  contains_emojis (py "<a:wave:987654321098765432>") = true /\
  contains_emojis (py "<:bad_id:>") = false.
Proof.
  split; [|repeat split; vm_compute; reflexivity].
  intros text. rewrite contains_emojis_true, search_EMOJI_PATTERN, search_spec.
  unfold hasEmoji. split.
  - intros [H|[before [w [after [Hs Hw]]]]]; [now left|right].
    exists before, w, after. split; [assumption|].
    now apply lang_CUSTOM_EMOJI_PATTERN.
  - intros [H|[before [w [after [Hs Hw]]]]]; [now left|right].
    exists before, w, after. split; [assumption|].
    now apply lang_CUSTOM_EMOJI_PATTERN.
Qed.

(** ** The handler *)

Lemma caps_warning_distinct (message : Message) :
  caps_warning message <> emoji_warning message /\
  caps_warning message <> acknowledgement message.
Proof. split; discriminate. Qed.

Section OrbisClientFacts.

Context {U : StrMethods} {D : ClientUser}.
Variable CONFIG : config.

Lemma on_message_unmonitored
  (self_user : User) (message : Message) (out : outbox) :
  User_eq (author message) self_user = true \/
  is_TextChannel (channel message) = false ->
  on_message CONFIG self_user message out = (Ok tt, out).
Proof.
  intros [Hself|Hother]; unfold on_message.
  - now rewrite Hself.
  - rewrite Hother. now destruct (User_eq (author message) self_user).
Qed.

Lemma on_message_monitored (self_user : User) (message : Message) (out : outbox) :
  User_eq (author message) self_user = false ->
  is_TextChannel (channel message) = true ->
  on_message CONFIG self_user message out =
  match contains_too_much_caps CONFIG (content message) with
  | Raise e => (Raise e, out)
  | Ok true => (Ok tt, out ++ [(channel message, caps_warning message)])
  | Ok false =>
      if contains_emojis (content message) then
        (Ok tt, out ++ [(channel message, emoji_warning message)])
      else if mentioned_in self_user message then
        (Ok tt, out ++ [(channel message, acknowledgement message)])
      else (Ok tt, out)
  end.
Proof.
  intros Hself Htext. unfold on_message, bind, lift, send, ret.
  rewrite Hself, Htext. simpl.
  destruct (contains_too_much_caps CONFIG (content message)) as [[|]|e];
    try reflexivity.
  destruct (contains_emojis (content message)); [reflexivity|].
  destruct (mentioned_in self_user message); reflexivity.
Qed.

(** C5. A monitored message that is both shouting and carries an emoji gets
    the caps warning only, neither the emoji warning nor the
    acknowledgement. *)
Theorem on_message_caps_before_emoji
  (self_user : User) (message : Message) (out : outbox) :
  User_eq (author message) self_user = false ->
  is_TextChannel (channel message) = true ->
  contains_too_much_caps CONFIG (content message) = Ok true ->
  contains_emojis (content message) = true ->
  on_message CONFIG self_user message out =
    (Ok tt, out ++ [(channel message, caps_warning message)]) /\
  caps_warning message <> emoji_warning message /\
  caps_warning message <> acknowledgement message.
Proof.
  intros Hself Htext Hcaps _. split; [|apply caps_warning_distinct].
  rewrite on_message_monitored by assumption. now rewrite Hcaps.
Qed.

(** C6. A message of the bot itself, or one outside a text channel, gets no
    reply, whatever its text and mentions. *)
Theorem on_message_ignored
  (self_user : User) (message : Message) (out : outbox) :
  User_eq (author message) self_user = true \/
  is_TextChannel (channel message) = false ->
  on_message CONFIG self_user message out = (Ok tt, out).
Proof.
  unfold on_message. intros [Hself|Hother].
  - rewrite Hself. reflexivity.
  - destruct (User_eq (author message) self_user); [reflexivity|].
    rewrite Hother. reflexivity.
Qed.


(** C8. One invocation of the handler sends nothing or one message: the
    outbox grows by at most one entry, also when the handler raises. *)
Theorem on_message_sends_at_most_once
  (self_user : User) (message : Message) (out : outbox) :
  exists sent,
    snd (on_message CONFIG self_user message out) = out ++ sent /\
    (length sent <= 1)%nat.
Proof.
  destruct (User_eq (author message) self_user) eqn:Hself.
  { exists []. rewrite on_message_unmonitored by now left.
    simpl. rewrite app_nil_r. auto. }
  destruct (is_TextChannel (channel message)) eqn:Htext.
  2:{ exists []. rewrite on_message_unmonitored by now right.
      simpl. rewrite app_nil_r. auto. }
  rewrite on_message_monitored by assumption.
  destruct (contains_too_much_caps CONFIG (content message)) as [[|]|e].
  - eexists. split; [reflexivity|]. simpl; lia.
  - destruct (contains_emojis (content message)).
    + eexists. split; [reflexivity|]. simpl; lia.
    + destruct (mentioned_in self_user message).
      * eexists. split; [reflexivity|]. simpl; lia.
      * exists []. simpl. rewrite app_nil_r. auto.
  - exists []. simpl. rewrite app_nil_r. auto.
Qed.

(** C10 (as the ranges are). Every text with a code point in U+24C2-U+1F251
    is reported as containing emoji; the range holds hiragana, katakana, the
    Hangul syllables and the CJK ideographs below U+20000, but not the
    ideographs of Extensions B to G, and a text made of those alone is not
    reported; a monitored, non-shouting message with a character of the
    range gets the emoji warning. *)
Theorem contains_emojis_last_range :
  (forall text c,
     In c text -> 0x24C2 <= c <= 0x1F251 -> contains_emojis text = true) /\
  (forall c,
     (cjk_ideograph c /\ c < 0x20000) \/ hiragana c \/ katakana c \/
     hangul_syllable c ->
     0x24C2 <= c <= 0x1F251) /\
  (forall text,
     Forall (fun c => cjk_ideograph c /\ 0x20000 <= c) text ->
     contains_emojis text = false) /\
  (forall self_user message out c,
     User_eq (author message) self_user = false ->
     is_TextChannel (channel message) = true ->
     contains_too_much_caps CONFIG (content message) = Ok false ->
     In c (content message) -> 0x24C2 <= c <= 0x1F251 ->
     on_message CONFIG self_user message out =
       (Ok tt, out ++ [(channel message, emoji_warning message)])).
Proof.
  assert (Hdetect : forall text c,
            In c text -> 0x24C2 <= c <= 0x1F251 -> contains_emojis text = true).
  { intros text c Hin Hc. apply contains_emojis_true. left.
    apply search_EMOJI_PATTERN. exists c. split; [assumption|].
    unfold emoji_codepoint. tauto. }
  split; [exact Hdetect|]. split; [|split].
  - unfold cjk_ideograph, hiragana, katakana, hangul_syllable. intros c. lia.
  - intros text Hhigh. rewrite Forall_forall in Hhigh.
    destruct (contains_emojis text) eqn:E; [|reflexivity].
    exfalso. apply contains_emojis_true in E as [E|E].
    + apply search_EMOJI_PATTERN in E as [c [Hin Hc]].
      destruct (Hhigh c Hin) as [_ Hc']. unfold emoji_codepoint in Hc. lia.
    + apply search_spec in E as [b [w [a [-> Hw]]]].
      apply lang_CUSTOM_EMOJI_PATTERN in Hw as [opt [name [digits [-> _]]]].
      assert (Hin : In (ord "<") (b ++ (py "<" ++ opt ++ py ":" ++ name ++ py ":"
                                        ++ digits ++ py ">") ++ a)).
      { apply in_or_app. right. now left. }
      destruct (Hhigh _ Hin) as [_ Hc']. vm_compute in Hc'. now apply Hc'.
  - intros self_user message out c Hself Htext Hcaps Hin Hc.
    rewrite on_message_monitored by assumption.
    now rewrite Hcaps, (Hdetect _ _ Hin Hc).
Qed.

End OrbisClientFacts.

(** ** Worked examples on CPython's tables *)

(** C9 (as the code counts). With [caps_threshold] 0.6 and [min_alpha_chars]
    5, the text "THIS IS BAD" has 11 characters of which 9 are letters, all 9
    uppercase, so the ratio is 1.0 and a monitored message with this text
    gets the caps warning, which contains the author's mention. *)
Theorem this_is_bad_gets_caps_warning
  {D : ClientUser} (CONFIG : config)
  (self_user : User) (message : Message) (out : outbox) :
  CAPS_THRESHOLD CONFIG = float_0_6 ->
  MIN_ALPHA_CHARS CONFIG = 5 ->
  content message = py "THIS IS BAD" ->
  User_eq (author message) self_user = false ->
  is_TextChannel (channel message) = true ->
  length (py "THIS IS BAD") = 11%nat /\
  alpha_count (U := cpython) (py "THIS IS BAD") = 9 /\
  caps_count (U := cpython) (py "THIS IS BAD") = 9 /\
  truediv 9 9 = Ok 1%float /\
  on_message (U := cpython) CONFIG self_user message out =
    (Ok tt, out ++ [(channel message, caps_warning message)]) /\
  caps_warning message =
    py "ugh, " ++ mention (author message)
    ++ py ", why are you shouting? it's rude. please use lowercase.".
Proof.
  intros Hthr Hmin Htext Hself Hchan.
  assert (Halpha : alpha_count (U := cpython) (py "THIS IS BAD") = 9)
    by (vm_compute; reflexivity).
  assert (Hcaps : caps_count (U := cpython) (py "THIS IS BAD") = 9)
    by (vm_compute; reflexivity).
  split; [reflexivity|]. split; [exact Halpha|]. split; [exact Hcaps|].
  split; [vm_compute; reflexivity|]. split; [|reflexivity].
  rewrite on_message_monitored by assumption.
  unfold contains_too_much_caps. rewrite Htext, Halpha, Hcaps, Hthr, Hmin.
  vm_compute. reflexivity.
Qed.

(** C1 at ["min_alpha_chars": 0] and the text "...". *)
Lemma contains_too_much_caps_divides_by_zero_witness :
  MIN_ALPHA_CHARS zero_minimum <= 0 /\
  alpha_count (U := cpython) (py "...") = 0 /\
  contains_too_much_caps (U := cpython) zero_minimum (py "...") =
    Raise ZeroDivisionError.
Proof.
  assert (Hmin : MIN_ALPHA_CHARS zero_minimum <= 0) by (vm_compute; discriminate).
  assert (Halpha : alpha_count (U := cpython) (py "...") = 0) by reflexivity.
  split; [exact Hmin|]. split; [exact Halpha|].
  exact (contains_too_much_caps_divides_by_zero zero_minimum (py "...") Hmin Halpha).
Defined.

(** C2 on the default configuration: 4 capitals of 6 letters, 3 letters, and
    3 capitals of 5 letters, whose ratio is the threshold itself. *)
Lemma contains_too_much_caps_iff_witness :
  contains_too_much_caps (U := cpython) default_config (py "AAAAbb") = Ok true /\
  contains_too_much_caps (U := cpython) default_config (py "ABC") = Ok false /\
  contains_too_much_caps (U := cpython) default_config (py "AAAbb") = Ok false.
Proof.
  split; [|split].
  - apply (proj1 (contains_too_much_caps_iff (U := cpython) default_config (py "AAAAbb"))).
    split; [vm_compute; discriminate|].
    exists (PrimFloat.div (float_of_int 4) (float_of_int 6)).
    split; reflexivity.
  - apply (proj1 (proj2 (contains_too_much_caps_iff (U := cpython) default_config (py "ABC")))).
    vm_compute. reflexivity.
  - apply (proj2 (proj2 (contains_too_much_caps_iff (U := cpython) default_config (py "AAAbb")))
             (PrimFloat.div (float_of_int 3) (float_of_int 5))).
    + vm_compute; discriminate.
    + reflexivity.
    + reflexivity.
Defined.

(** C3 on "Hello". *)
Lemma caps_count_le_alpha_count_witness :
  Forall (fun c => isupper (StrMethods := cpython) c = true ->
                   isalpha (StrMethods := cpython) c = true) (py "Hello") /\
  caps_count (U := cpython) (py "Hello") <= alpha_count (U := cpython) (py "Hello").
Proof.
  assert (H : Forall (fun c => isupper (StrMethods := cpython) c = true ->
                               isalpha (StrMethods := cpython) c = true) (py "Hello"))
    by (repeat constructor).
  split; [exact H|].
  exact (proj2 (proj2 (caps_count_le_alpha_count (U := cpython) (py "Hello"))) H).
Defined.

(** C3 fails as stated: on CPython's tables a Roman numeral is uppercase
    without being a letter, one uppercase character and no alphabetic one. *)
Lemma caps_count_exceeds_alpha_count :
  ~ (caps_count (U := cpython) roman_eight <= alpha_count (U := cpython) roman_eight).
Proof.
  change (~ (1 <= 0)). lia.
Qed.

(** C9 fails as stated: "THIS IS BAD" has nine letters, not eleven. *)
Lemma this_is_bad_has_nine_letters :
  ~ (alpha_count (U := cpython) (py "THIS IS BAD") = 11 /\
     caps_count (U := cpython) (py "THIS IS BAD") = 9).
Proof.
  intros [H _]. vm_compute in H. discriminate.
Qed.

(** C5 on "HELLO" followed by an emoji. *)
Lemma on_message_caps_before_emoji_witness :
  contains_too_much_caps (U := cpython) default_config shouted_emoji = Ok true /\
  contains_emojis shouted_emoji = true /\
  on_message (U := cpython) default_config orbis
    (message_of alice general shouted_emoji [orbis]) [] =
    (Ok tt, [(general, caps_warning (message_of alice general shouted_emoji [orbis]))]).
Proof.
  split; [reflexivity|]. split; [reflexivity|].
  apply (on_message_caps_before_emoji (U := cpython) default_config orbis
           (message_of alice general shouted_emoji [orbis]) []);
    reflexivity.
Defined.

(** C6 on the bot's own message and on a message in a voice channel. *)
Lemma on_message_ignored_witness :
  on_message (U := cpython) default_config orbis
    (message_of orbis general shouted_emoji [orbis]) [] = (Ok tt, []) /\
  on_message (U := cpython) default_config orbis
    (message_of alice lounge shouted_emoji [orbis]) [] = (Ok tt, []).
Proof.
  split.
  - apply (on_message_ignored (U := cpython) default_config orbis
             (message_of orbis general shouted_emoji [orbis]) []).
    left. reflexivity.
  - apply (on_message_ignored (U := cpython) default_config orbis
             (message_of alice lounge shouted_emoji [orbis]) []).
    right. reflexivity.
Defined.


(** C9 on the default configuration. *)
Lemma this_is_bad_gets_caps_warning_witness :
  on_message (U := cpython) default_config orbis
    (message_of alice general (py "THIS IS BAD") []) [] =
    (Ok tt, [(general, py "ugh, <@2>, why are you shouting? it's rude. please use lowercase.")]).
Proof.
  apply (this_is_bad_gets_caps_warning default_config orbis
           (message_of alice general (py "THIS IS BAD") []) []);
    reflexivity.
Defined.

(** C10 on a greeting in hiragana and on two ideographs of Extension B. *)
Lemma contains_emojis_last_range_witness :
  contains_too_much_caps (U := cpython) default_config konnichiwa = Ok false /\
  contains_emojis konnichiwa = true /\
  contains_emojis extension_b = false /\
  on_message (U := cpython) default_config orbis
    (message_of alice general konnichiwa []) [] =
    (Ok tt, [(general, emoji_warning (message_of alice general konnichiwa []))]).
Proof.
  split; [reflexivity|]. split; [|split].
  - apply (proj1 (contains_emojis_last_range (U := cpython) default_config) konnichiwa 0x3053).
    + left. reflexivity.
    + lia.
  - apply (proj1 (proj2 (proj2 (contains_emojis_last_range (U := cpython) default_config)))
             extension_b).
    unfold cjk_ideograph. repeat constructor; lia.
  - apply (proj2 (proj2 (proj2 (contains_emojis_last_range (U := cpython) default_config)))
             orbis (message_of alice general konnichiwa []) [] 0x3053).
    + reflexivity.
    + reflexivity.
    + reflexivity.
    + left. reflexivity.
    + lia.
Defined.

(** C10 fails as stated: U+20000 is a CJK ideograph outside U+24C2-U+1F251,
    and a text with it alone is not reported. *)
Lemma contains_emojis_misses_extension_b :
  cjk_ideograph 0x20000 /\
  ~ (0x24C2 <= 0x20000 <= 0x1F251) /\
  contains_emojis [0x20000] = false.
Proof.
  split; [unfold cjk_ideograph; lia|]. split; [lia|reflexivity].
Qed.

(** * Further properties of the code *)

(** ** Counts *)

Section CountFacts.

Context {U : StrMethods}.
Variable CONFIG : config.

Lemma caps_count_app (a b : str) :
  caps_count (a ++ b) = caps_count a + caps_count b.
Proof.
  rewrite !caps_count_length, filter_app, length_app. lia.
Qed.

Lemma alpha_count_app (a b : str) :
  alpha_count (a ++ b) = alpha_count a + alpha_count b.
Proof.
  rewrite !alpha_count_length, filter_app, length_app. lia.
Qed.

Lemma filter_length_le (A : Type) (f : A -> bool) (l : list A) :
  (length (filter f l) <= length l)%nat.
Proof.
  induction l as [|x l IH]; simpl; [lia|].
  destruct (f x); simpl; lia.
Qed.

Lemma filter_none (A : Type) (f : A -> bool) (l : list A) :
  Forall (fun x => f x = false) l -> filter f l = [].
Proof.
  induction 1 as [|x l Hx _ IH]; simpl; [reflexivity|]. now rewrite Hx.
Qed.

Lemma alpha_count_le_length (text : str) :
  0 <= alpha_count text <= Z.of_nat (length text).
Proof.
  rewrite alpha_count_length. pose proof (filter_length_le _ isalpha text). lia.
Qed.

Lemma caps_count_le_length (text : str) :
  0 <= caps_count text <= Z.of_nat (length text).
Proof.
  rewrite caps_count_length. pose proof (filter_length_le _ isupper text). lia.
Qed.

Lemma truediv_raises_iff (a b : Z) (e : exn) : truediv a b = Raise e <-> b = 0.
Proof.
  unfold truediv. destruct (Z.eqb_spec b 0) as [Hz|Hnz]; destruct e.
  - tauto.
  - split; [discriminate|contradiction].
Qed.

(** Both counts lie between 0 and the length of the text. *)
Theorem counts_bounded (text : str) :
  0 <= caps_count text <= Z.of_nat (length text) /\
  0 <= alpha_count text <= Z.of_nat (length text).
Proof.
  split; [apply caps_count_le_length|apply alpha_count_le_length].
Qed.

(** A text with fewer characters than [MIN_ALPHA_CHARS] is never reported as
    shouting, whatever it consists of. *)
Theorem short_text_not_shouting (text : str) :
  Z.of_nat (length text) < MIN_ALPHA_CHARS CONFIG ->
  contains_too_much_caps CONFIG text = Ok false.
Proof.
  intros Hshort. unfold contains_too_much_caps.
  destruct (alpha_count text >=? MIN_ALPHA_CHARS CONFIG) eqn:E; [|reflexivity].
  apply Z.geb_le in E. pose proof (alpha_count_le_length text). lia.
Qed.

(** [contains_too_much_caps] raises exactly when the configured minimum is 0
    or less and the text has no letter; the exception is then
    [ZeroDivisionError]. *)
Theorem contains_too_much_caps_raises_iff (text : str) (e : exn) :
  contains_too_much_caps CONFIG text = Raise e <->
  MIN_ALPHA_CHARS CONFIG <= 0 /\ alpha_count text = 0.
Proof.
  unfold contains_too_much_caps.
  pose proof (alpha_count_le_length text) as [Hpos _].
  destruct (alpha_count text >=? MIN_ALPHA_CHARS CONFIG) eqn:E.
  - apply Z.geb_le in E.
    destruct (truediv (caps_count text) (alpha_count text)) as [ratio|e'] eqn:Hdiv;
      simpl.
    + assert (Hnz : alpha_count text <> 0).
      { intros Hz. rewrite Hz in Hdiv. discriminate. }
      destruct (float_gt _ _); split; try discriminate; lia.
    + apply truediv_raises_iff in Hdiv. destruct e, e'.
      split; [intros _; lia|reflexivity].
  - rewrite Z.geb_leb in E. apply Z.leb_gt in E.
    split; [discriminate|lia].
Qed.

(** The verdict depends on the characters of the text, not on their order. *)
Theorem contains_too_much_caps_permutation (text text' : str) :
  Permutation text text' ->
  contains_too_much_caps CONFIG text = contains_too_much_caps CONFIG text'.
Proof.
  intros Hperm.
  assert (Hcount : forall f : codepoint -> bool,
             length (filter f text) = length (filter f text')).
  { intros f. induction Hperm; simpl.
    - reflexivity.
    - destruct (f x); simpl; now rewrite IHHperm.
    - destruct (f x), (f y); reflexivity.
    - congruence. }
  unfold contains_too_much_caps.
  now rewrite !caps_count_length, !alpha_count_length, !Hcount.
Qed.

(** Characters that are neither uppercase nor alphabetic (digits, spaces,
    punctuation) do not change the verdict, wherever they are inserted. *)
Theorem contains_too_much_caps_ignores_nonletters (before pad after : str) :
  Forall (fun c => isupper c = false /\ isalpha c = false) pad ->
  contains_too_much_caps CONFIG (before ++ pad ++ after) =
  contains_too_much_caps CONFIG (before ++ after).
Proof.
  intros Hpad.
  assert (Hup : caps_count pad = 0).
  { rewrite caps_count_length, filter_none; [reflexivity|].
    revert Hpad. apply Forall_impl. tauto. }
  assert (Hal : alpha_count pad = 0).
  { rewrite alpha_count_length, filter_none; [reflexivity|].
    revert Hpad. apply Forall_impl. tauto. }
  unfold contains_too_much_caps.
  rewrite !caps_count_app, !alpha_count_app, Hup, Hal. reflexivity.
Qed.

End CountFacts.

(** ** Texts without capitals *)

Lemma SFltb_zero_sign (t : spec_float) (s : bool) :
  SFltb t (S754_zero false) = false -> SFltb t (S754_zero s) = false.
Proof. destruct t; simpl; auto. Qed.

Lemma SFltb_nan (t : spec_float) : SFltb t S754_nan = false.
Proof. now destruct t. Qed.

(** [0 / y] is a zero or a NaN, so it is greater than no threshold that is
    not below zero. *)
Lemma zero_div_not_gt (threshold y : float) :
  PrimFloat.ltb threshold 0 = false ->
  float_gt (PrimFloat.div (float_of_int 0) y) threshold = false.
Proof.
  unfold float_gt. rewrite !FloatAxioms.ltb_spec, FloatAxioms.div_spec.
  change (Prim2SF (float_of_int 0)) with (S754_zero false).
  change (Prim2SF 0) with (S754_zero false).
  intros Hthr. unfold SF64div, SFdiv.
  destruct (Prim2SF y) as [sy|sy| |sy my ey].
  - apply SFltb_nan.
  - now apply SFltb_zero_sign.
  - apply SFltb_nan.
  - now apply SFltb_zero_sign.
Qed.

Section NoCapitals.

Context {U : StrMethods}.
Variable CONFIG : config.

(** With a threshold that is not below zero, a text without any uppercase
    character is never reported as shouting. *)
Theorem no_capitals_not_shouting (text : str) :
  PrimFloat.ltb (CAPS_THRESHOLD CONFIG) 0 = false ->
  Forall (fun c => isupper c = false) text ->
  contains_too_much_caps CONFIG text <> Ok true.
Proof.
  intros Hthr Hlower.
  assert (Hcaps : caps_count text = 0).
  { rewrite caps_count_length, filter_none; [reflexivity|assumption]. }
  unfold contains_too_much_caps. rewrite Hcaps.
  destruct (alpha_count text >=? MIN_ALPHA_CHARS CONFIG); [|discriminate].
  unfold truediv. destruct (alpha_count text =? 0); simpl; [discriminate|].
  now rewrite (zero_div_not_gt _ _ Hthr).
Qed.

End NoCapitals.

(** ** Uppercase characters that are not letters, on CPython's tables *)

Lemma in_ranges_app (a b : list (codepoint * codepoint)) (c : codepoint) :
  in_ranges (a ++ b) c = in_ranges a c || in_ranges b c.
Proof. apply existsb_app. Qed.

Lemma ranges_subset_sound (a b : list (codepoint * codepoint)) :
  ranges_subset a b = true ->
  forall c, in_ranges a c = true -> in_ranges b c = true.
Proof.
  unfold ranges_subset. rewrite forallb_forall. intros Hsub c Hc.
  apply in_ranges_iff in Hc as [lo [hi [Hin Hc]]].
  specialize (Hsub _ Hin). unfold range_within in Hsub.
  apply existsb_exists in Hsub as [[lo' hi'] [Hin' Hb]]. simpl in Hb.
  apply andb_true_iff in Hb as [H1 H2].
  apply in_ranges_iff. exists lo', hi'. split; [assumption|lia].
Qed.

Lemma ranges_disjoint_sound (a b : list (codepoint * codepoint)) :
  ranges_disjoint a b = true ->
  forall c, in_ranges a c = true -> in_ranges b c = false.
Proof.
  unfold ranges_disjoint. rewrite forallb_forall. intros Hdis c Hc.
  apply in_ranges_iff in Hc as [lo [hi [Hin Hc]]].
  specialize (Hdis _ Hin). rewrite forallb_forall in Hdis.
  destruct (in_ranges b c) eqn:Hb; [|reflexivity].
  apply in_ranges_iff in Hb as [lo' [hi' [Hin' Hc']]].
  specialize (Hdis _ Hin'). simpl in Hdis.
  apply orb_true_iff in Hdis as [H|H]; apply Z.ltb_lt in H; lia.
Qed.

Lemma cpython_upper_cases (c : codepoint) :
  isupper (StrMethods := cpython) c = true ->
  isalpha (StrMethods := cpython) c = true \/
  in_ranges uppercase_nonletters c = true.
Proof.
  cbn [isupper isalpha cpython]. intros Hup.
  assert (H : in_ranges (unicodedata.alpha_table ++ uppercase_nonletters) c = true).
  { revert Hup. apply ranges_subset_sound. vm_compute. reflexivity. }
  rewrite in_ranges_app in H. now apply orb_true_iff in H.
Qed.

(** On CPython's tables the characters that count as uppercase without
    counting as alphabetic are exactly the Roman numerals and the circled,
    squared and negative capitals. *)
Theorem uppercase_nonletters_iff (c : codepoint) :
  isupper (StrMethods := cpython) c = true /\
  isalpha (StrMethods := cpython) c = false <->
  in_ranges uppercase_nonletters c = true.
Proof.
  split.
  - intros [Hup Hal]. destruct (cpython_upper_cases c Hup) as [H|H]; [|exact H].
    rewrite H in Hal. discriminate.
  - cbn [isupper isalpha cpython]. intros H. split.
    + revert H. apply ranges_subset_sound. vm_compute. reflexivity.
    + revert H. apply ranges_disjoint_sound. vm_compute. reflexivity.
Qed.

(** Hence, on CPython's tables, a text without those characters has at most
    as many uppercase characters as letters. *)
Theorem caps_count_le_alpha_count_cpython (text : str) :
  Forall (fun c => in_ranges uppercase_nonletters c = false) text ->
  caps_count (U := cpython) text <= alpha_count (U := cpython) text.
Proof.
  intros Hplain. rewrite caps_count_length, alpha_count_length.
  apply Nat2Z.inj_le, filter_length_mono.
  revert Hplain. apply Forall_impl. intros c Hc Hup.
  destruct (cpython_upper_cases c Hup) as [H|H]; [exact H|].
  rewrite H in Hc. discriminate.
Qed.

(** ** More on the emoji detector *)

Lemma search_embedded (p : re.pattern) (before w after : str) :
  re.search p w = true -> re.search p (before ++ w ++ after) = true.
Proof.
  rewrite !search_spec. intros [b [m [a [-> Hm]]]].
  exists (before ++ b), m, (a ++ after). split; [|assumption].
  now rewrite <- !app_assoc.
Qed.

(** Text around an emoji does not hide it: a text that contains a piece with
    an emoji is reported itself. *)
Theorem contains_emojis_embedded (before w after : str) :
  contains_emojis w = true -> contains_emojis (before ++ w ++ after) = true.
Proof.
  rewrite !contains_emojis_true.
  intros [H|H]; [left|right]; now apply search_embedded.
Qed.

(** A text whose code points are all below U+24C2 and which has no ['<'] is
    never reported: plain Latin, Greek or Cyrillic prose passes. *)
Theorem contains_emojis_plain_text (text : str) :
  Forall (fun c => c < 0x24C2) text ->
  ~ In (ord "<") text ->
  contains_emojis text = false.
Proof.
  intros Hlow Hangle. destruct (contains_emojis text) eqn:E; [|reflexivity].
  exfalso. apply contains_emojis_true in E as [E|E].
  - apply search_EMOJI_PATTERN in E as [c [Hin Hc]].
    rewrite Forall_forall in Hlow. specialize (Hlow c Hin).
    unfold emoji_codepoint in Hc. lia.
  - apply search_spec in E as [b [w [a [-> Hw]]]].
    apply lang_CUSTOM_EMOJI_PATTERN in Hw
      as [opt [name [digits [-> _]]]].
    apply Hangle. apply in_or_app. right. now left.
Qed.

(** The six ranges of [EMOJI_PATTERN] overlap: the class is the union of four
    disjoint intervals, and the Dingbats range adds nothing to the last
    one. *)
Theorem emoji_set_intervals (c : codepoint) :
  in_ranges emoji_set c = true <->
  0x24C2 <= c <= 0x1F251 \/ 0x1F300 <= c <= 0x1F64F \/
  0x1F680 <= c <= 0x1F6FF \/ 0x1F900 <= c <= 0x1F9FF.
Proof.
  rewrite emoji_set_iff. unfold emoji_codepoint. lia.
Qed.

(** A custom-emoji markup has at least six characters, so a text of at most
    five characters is reported only for a character of [EMOJI_PATTERN]. *)
Theorem contains_emojis_short_text (text : str) :
  (length text <= 5)%nat ->
  contains_emojis text = true <-> exists c, In c text /\ in_ranges emoji_set c = true.
Proof.
  intros Hlen. rewrite contains_emojis_true, search_EMOJI_PATTERN. split.
  - intros [[c [Hin Hc]]|H].
    + exists c. split; [assumption|]. now apply emoji_set_iff.
    + exfalso. apply search_spec in H as [b [w [a [-> Hw]]]].
      apply lang_CUSTOM_EMOJI_PATTERN in Hw
        as [opt [name [digits [-> [_ [Hn [_ [Hd _]]]]]]]].
      rewrite !length_app in Hlen. simpl in Hlen.
      destruct name; [contradiction|]. destruct digits; [contradiction|].
      simpl in Hlen. lia.
  - intros [c [Hin Hc]]. left. exists c. split; [assumption|].
    now apply emoji_set_iff.
Qed.

(** ** More on the handler *)

Lemma app_singleton_neq (A : Type) (l : list A) (x : A) : l ++ [x] <> l.
Proof.
  intros H. apply (f_equal (@length A)) in H.
  rewrite length_app in H. simpl in H. lia.
Qed.

Section OrbisClientMore.

Context {U : StrMethods} {D : ClientUser}.
Variable CONFIG : config.

(** The handler stays silent, returning normally, exactly for a message of the
    bot itself, a message outside a text channel, and a message that neither
    shouts, nor carries an emoji, nor mentions the bot. *)
Theorem on_message_silent_iff
  (self_user : User) (message : Message) (out : outbox) :
  on_message CONFIG self_user message out = (Ok tt, out) <->
  User_eq (author message) self_user = true \/
  is_TextChannel (channel message) = false \/
  (contains_too_much_caps CONFIG (content message) = Ok false /\
   contains_emojis (content message) = false /\
   mentioned_in self_user message = false).
Proof.
  destruct (User_eq (author message) self_user) eqn:Hself.
  { rewrite on_message_unmonitored by now left. tauto. }
  destruct (is_TextChannel (channel message)) eqn:Htext.
  2:{ rewrite on_message_unmonitored by now right. tauto. }
  rewrite on_message_monitored by assumption.
  destruct (contains_too_much_caps CONFIG (content message)) as [[|]|e].
  - split.
    + intros H. injection H as H. now apply app_singleton_neq in H.
    + intros [H|[H|[H _]]]; discriminate.
  - destruct (contains_emojis (content message)).
    + split.
      * intros H. injection H as H. now apply app_singleton_neq in H.
      * intros [H|[H|[_ [H _]]]]; discriminate.
    + destruct (mentioned_in self_user message).
      * split.
        -- intros H. injection H as H. now apply app_singleton_neq in H.
        -- intros [H|[H|[_ [_ H]]]]; discriminate.
      * tauto.
  - split; [discriminate|]. intros [H|[H|[H _]]]; discriminate.
Qed.

(** The handler fails with the detector's [ZeroDivisionError], before any
    send, exactly for a monitored message without letters under a configured
    minimum of 0 or less. *)
Theorem on_message_zero_division_iff
  (self_user : User) (message : Message) (out : outbox) :
  on_message CONFIG self_user message out = (Raise ZeroDivisionError, out) <->
  User_eq (author message) self_user = false /\
  is_TextChannel (channel message) = true /\
  MIN_ALPHA_CHARS CONFIG <= 0 /\
  alpha_count (content message) = 0.
Proof.
  destruct (User_eq (author message) self_user) eqn:Hself.
  { rewrite on_message_unmonitored by now left.
    split; [discriminate|]. intros [H _]; discriminate. }
  destruct (is_TextChannel (channel message)) eqn:Htext.
  2:{ rewrite on_message_unmonitored by now right.
      split; [discriminate|]. intros [_ [H _]]; discriminate. }
  rewrite on_message_monitored by assumption.
  pose proof (alpha_count_le_length (content message)) as [Hpos _].
  unfold contains_too_much_caps.
  destruct (alpha_count (content message) >=? MIN_ALPHA_CHARS CONFIG) eqn:E.
  - apply Z.geb_le in E.
    destruct (truediv (caps_count (content message)) (alpha_count (content message)))
      as [ratio|e'] eqn:Hdiv; simpl.
    + assert (Hnz : alpha_count (content message) <> 0).
      { intros Hz. rewrite Hz in Hdiv. discriminate. }
      destruct (float_gt _ _).
      * split; [discriminate|]. intros [_ [_ [_ H]]]. contradiction.
      * destruct (contains_emojis (content message));
          [|destruct (mentioned_in self_user message)];
          (split; [discriminate|]; intros [_ [_ [_ H]]]; contradiction).
    + apply truediv_raises_iff in Hdiv. destruct e'.
      split; [intros _|reflexivity]. repeat split; [lia|assumption].
  - rewrite Z.geb_leb in E. apply Z.leb_gt in E.
    destruct (contains_emojis (content message));
      [|destruct (mentioned_in self_user message)];
      (split; [discriminate|]; intros [_ [_ [Hmin Hz]]]; lia).
Qed.

(** Whatever the handler sends goes to the channel the message came from and
    is one of the three replies, each of which contains the author's
    mention. *)
Theorem on_message_replies_in_place
  (self_user : User) (message : Message) (out sent : outbox) :
  snd (on_message CONFIG self_user message out) = out ++ sent ->
  Forall (fun reply =>
            fst reply = channel message /\
            (snd reply = caps_warning message \/
             snd reply = emoji_warning message \/
             snd reply = acknowledgement message) /\
            exists prefix suffix,
              snd reply = prefix ++ mention (author message) ++ suffix) sent.
Proof.
  assert (Hone : forall reply,
            reply = caps_warning message \/ reply = emoji_warning message \/
            reply = acknowledgement message ->
            out ++ [(channel message, reply)] = out ++ sent ->
            Forall (fun r =>
              fst r = channel message /\
              (snd r = caps_warning message \/ snd r = emoji_warning message \/
               snd r = acknowledgement message) /\
              exists prefix suffix,
                snd r = prefix ++ mention (author message) ++ suffix) sent).
  { intros reply Hreply Heq. apply app_inv_head in Heq. subst sent.
    constructor; [|constructor]. split; [reflexivity|]. split; [exact Hreply|].
    simpl. destruct Hreply as [->|[->| ->]]; eexists; eexists; reflexivity. }
  assert (Hnone : out = out ++ sent -> sent = []).
  { intros Heq. rewrite <- (app_nil_r out) in Heq at 1.
    now apply app_inv_head in Heq. }
  destruct (User_eq (author message) self_user) eqn:Hself.
  { rewrite on_message_unmonitored by now left.
    intros H. rewrite (Hnone H). constructor. }
  destruct (is_TextChannel (channel message)) eqn:Htext.
  2:{ rewrite on_message_unmonitored by now right.
      intros H. rewrite (Hnone H). constructor. }
  rewrite on_message_monitored by assumption.
  destruct (contains_too_much_caps CONFIG (content message)) as [[|]|e]; simpl.
  - apply Hone. auto.
  - destruct (contains_emojis (content message)); simpl; [apply Hone; auto|].
    destruct (mentioned_in self_user message); simpl; [apply Hone; auto|].
    intros H. rewrite (Hnone H). constructor.
  - intros H. rewrite (Hnone H). constructor.
Qed.


End OrbisClientMore.

(** ** The further properties on worked inputs *)

Lemma short_text_not_shouting_witness :
  Z.of_nat (length (py "HEY!")) < MIN_ALPHA_CHARS default_config /\
  contains_too_much_caps (U := cpython) default_config (py "HEY!") = Ok false.
Proof.
  assert (H : Z.of_nat (length (py "HEY!")) < MIN_ALPHA_CHARS default_config)
    by (vm_compute; reflexivity).
  split; [exact H|].
  exact (short_text_not_shouting (U := cpython) default_config (py "HEY!") H).
Defined.

Lemma contains_too_much_caps_permutation_witness :
  contains_too_much_caps (U := cpython) default_config (py "AB") =
  contains_too_much_caps (U := cpython) default_config (py "BA").
Proof.
  apply (contains_too_much_caps_permutation (U := cpython) default_config
           (py "AB") (py "BA")).
  apply perm_swap.
Defined.

Lemma contains_too_much_caps_ignores_nonletters_witness :
  contains_too_much_caps (U := cpython) default_config (py "STOP" ++ py " 1, 2! " ++ py "NOW") =
  contains_too_much_caps (U := cpython) default_config (py "STOP" ++ py "NOW").
Proof.
  apply (contains_too_much_caps_ignores_nonletters (U := cpython) default_config
           (py "STOP") (py " 1, 2! ") (py "NOW")).
  repeat constructor.
Defined.

Lemma no_capitals_not_shouting_witness :
  contains_too_much_caps (U := cpython) default_config (py "hello world") <> Ok true.
Proof.
  apply (no_capitals_not_shouting (U := cpython) default_config (py "hello world")).
  - reflexivity.
  - repeat constructor.
Defined.

Lemma caps_count_le_alpha_count_cpython_witness :
  caps_count (U := cpython) (py "Hello World") <=
  alpha_count (U := cpython) (py "Hello World").
Proof.
  apply (caps_count_le_alpha_count_cpython (py "Hello World")).
  repeat constructor.
Defined.

Lemma contains_emojis_embedded_witness :
  contains_emojis (py "well " ++ [0x1F600] ++ py " done") = true.
Proof.
  apply (contains_emojis_embedded (py "well ") [0x1F600] (py " done")).
  reflexivity.
Defined.

Lemma contains_emojis_plain_text_witness :
  contains_emojis (py "hello, world :)") = false.
Proof.
  apply (contains_emojis_plain_text (py "hello, world :)")).
  - repeat constructor.
  - vm_compute. intuition discriminate.
Defined.

Lemma contains_emojis_short_text_witness :
  contains_emojis (py "<:a:>") = true <->
  exists c, In c (py "<:a:>") /\ in_ranges emoji_set c = true.
Proof.
  apply (contains_emojis_short_text (py "<:a:>")). simpl. lia.
Defined.

Lemma on_message_replies_in_place_witness :
  Forall (fun reply =>
            fst reply = general /\
            (snd reply = caps_warning (message_of alice general shouted_emoji [orbis]) \/
             snd reply = emoji_warning (message_of alice general shouted_emoji [orbis]) \/
             snd reply = acknowledgement (message_of alice general shouted_emoji [orbis])) /\
            exists prefix suffix, snd reply = prefix ++ py "<@2>" ++ suffix)
    [(general, caps_warning (message_of alice general shouted_emoji [orbis]))].
Proof.
  apply (on_message_replies_in_place (U := cpython) default_config orbis
           (message_of alice general shouted_emoji [orbis]) []).
  reflexivity.
Defined.

